(** * 3D House Color Mixer: part classification, color application and
      render scheduling

    A shallow embedding of the viewer's core ([src/main.js] and its
    render-on-demand revision), with the properties of its design document
    stated and proved over it.

    Conventions of the embedding.
    - A scene node is a [THREE.Object3D]: a tree node with its numeric id ([objectId])
      (the library gives every object a distinct one), its [name], the
      [isMesh] flag and its [material] binding, which is absent, one material
      object, or an array of material objects.
    - Material objects live in a store indexed by reference.  Two slots that
      hold the same reference hold the same object, as in the library, where
      a loader hands one material to every mesh that uses it.
    - Labels are ASCII strings; [toLowerCase] folds the letters A-Z.
    - [new THREE.Color(color)] belongs to the rendering library: a color is
      taken here after that conversion, as its 24-bit RGB number. *)

From Stdlib Require Import Ascii String QArith Qround.
From stdpp Require Import gmap strings list fin_maps.

Set Warnings "-register-all".

Local Open Scope string_scope.
Local Open Scope nat_scope.

(** ** Strings as the code uses them *)

Definition lower_ascii (a : ascii) : ascii :=
  let n := nat_of_ascii a in
  if (65 <=? n) && (n <=? 90) then ascii_of_nat (n + 32) else a.

Fixpoint toLowerCase (s : string) : string :=
  match s with
  | EmptyString => EmptyString
  | String a s' => String (lower_ascii a) (toLowerCase s')
  end.

(** [includes s sub] is [s.includes(sub)]. *)
Fixpoint includes (s sub : string) : bool :=
  if String.prefix sub s then true
  else match s with
       | EmptyString => false
       | String _ s' => includes s' sub
       end.

(** ** Data model *)

Definition MaterialRef := nat.
Definition Color := N.

Record Material := mkMaterial {
  mat_name : string;
  color : Color
}.

Inductive MaterialBinding :=
  | NoMaterial
  | SingleMaterial (m : MaterialRef)
  | MaterialArray (ms : list MaterialRef).

Inductive Object3D :=
  | Object (id : nat) (name : string) (isMesh : bool)
           (material : MaterialBinding) (children : list Object3D).

Definition objectId (o : Object3D) : nat :=
  match o with Object i _ _ _ _ => i end.
Definition name (o : Object3D) : string :=
  match o with Object _ n _ _ _ => n end.
Definition isMesh (o : Object3D) : bool :=
  match o with Object _ _ b _ _ => b end.
Definition material (o : Object3D) : MaterialBinding :=
  match o with Object _ _ _ m _ => m end.
Definition children (o : Object3D) : list Object3D :=
  match o with Object _ _ _ _ cs => cs end.

(** [object.traverse(callback)]: the callback runs on the object, then on
    every child's subtree in order. *)
Fixpoint traverse (o : Object3D) : list Object3D :=
  match o with
  | Object _ _ _ _ cs => o :: flat_map traverse cs
  end.

Record HouseParts := mkHouseParts {
  walls : list Object3D;
  roof : list Object3D;
  doors : list Object3D;
  windows : list Object3D;
  other : list Object3D
}.

Definition emptyParts : HouseParts := mkHouseParts [] [] [] [] [].

(** One entry of the "model-parts" panel. *)
Record PartItem := mkPartItem {
  textContent : string;
  borderLeft : string
}.

(** The variables [analyzeModel] threads through its traversal. *)
Record Analysis := mkAnalysis {
  meshCount : nat;
  houseParts : HouseParts;
  partsList : list PartItem
}.

(** ** Part classifier: [analyzeModel] *)

Definition materialCount (child : Object3D) : nat :=
  match material child with
  | MaterialArray ms => length ms
  | SingleMaterial _ => 1
  | NoMaterial => 0
  end.

Definition orUnnamed (s : string) : string :=
  if String.eqb s "" then "Unnamed Part" else s.

Definition pushWalls (c : Object3D) (hp : HouseParts) : HouseParts :=
  mkHouseParts (walls hp ++ [c]) (roof hp) (doors hp) (windows hp) (other hp).
Definition pushRoof (c : Object3D) (hp : HouseParts) : HouseParts :=
  mkHouseParts (walls hp) (roof hp ++ [c]) (doors hp) (windows hp) (other hp).
Definition pushDoors (c : Object3D) (hp : HouseParts) : HouseParts :=
  mkHouseParts (walls hp) (roof hp) (doors hp ++ [c]) (windows hp) (other hp).
Definition pushWindows (c : Object3D) (hp : HouseParts) : HouseParts :=
  mkHouseParts (walls hp) (roof hp) (doors hp) (windows hp ++ [c]) (other hp).
Definition pushOther (c : Object3D) (hp : HouseParts) : HouseParts :=
  mkHouseParts (walls hp) (roof hp) (doors hp) (windows hp) (other hp ++ [c]).

(** The traversal callback of [analyzeModel]. *)
Definition visit (s : Analysis) (child : Object3D) : Analysis :=
  if isMesh child then
    let meshCount := S (meshCount s) in
    let text := orUnnamed (name child) in
    let name := toLowerCase (name child) in
    let materialCount := materialCount child in
    let hp := houseParts s in
    let done hp' item := mkAnalysis meshCount hp' (partsList s ++ [item]) in
    if includes name "cottage" && (4 <=? materialCount) then
      done (pushWindows child (pushDoors child (pushRoof child (pushWalls child hp))))
           (mkPartItem (text ++ " (Multi-Material - All Controls Active)")
                       "4px solid #4CAF50")
    else if includes name "cottage" || includes name "house"
            || (meshCount =? 1) then
      done (pushWalls child hp)
           (mkPartItem (text ++ " (Walls Control = Entire Cottage)")
                       "4px solid #D2B48C")
    else if includes name "wall" || includes name "siding"
            || includes name "exterior" then
      done (pushWalls child hp) (mkPartItem text "4px solid #D2B48C")
    else if includes name "roof" || includes name "shingle"
            || includes name "tile" then
      done (pushRoof child hp) (mkPartItem text "4px solid #8B4513")
    else if includes name "door" || includes name "entrance" then
      done (pushDoors child hp) (mkPartItem text "4px solid #654321")
    else if includes name "window" || includes name "glass"
            || includes name "pane" then
      done (pushWindows child hp) (mkPartItem text "4px solid #87CEEB")
    else
      done (pushOther child hp) (mkPartItem text "4px solid #888")
  else s.

(** [analyzeModel(object)]: the part arrays and the panel are reset, then
    the callback runs over the traversal.  What the index held before does
    not matter, so it is not an argument.  The set of material names and the
    "model-details" summary line are written but never read back by the
    classifier or the applicator; they are left out. *)
Definition analyzeModel (object : Object3D) : Analysis :=
  foldl visit (mkAnalysis 0 emptyParts []) (traverse object).

Definition classify (object : Object3D) : HouseParts :=
  houseParts (analyzeModel object).

(** ** Color applicator: [getPartMaterialIndex] and [updatePartColor] *)

(** What reading [houseParts[partType]] yields.  The object literal has five
    own keys, each bound to an array; any other key is looked up on
    [Object.prototype], whose members are functions or plain objects (none of
    them an array, none with a [forEach]), and is otherwise undefined. *)
Inductive PropertyValue :=
  | ArrayValue (parts : list Object3D)
  | InheritedValue
  | UndefinedValue.

Definition objectPrototypeKeys : list string :=
  ["constructor"; "__proto__"; "hasOwnProperty"; "isPrototypeOf";
   "propertyIsEnumerable"; "toLocaleString"; "toString"; "valueOf";
   "__defineGetter__"; "__defineSetter__"; "__lookupGetter__";
   "__lookupSetter__"].

Definition getProperty (hp : HouseParts) (key : string) : PropertyValue :=
  if String.eqb key "walls" then ArrayValue (walls hp)
  else if String.eqb key "roof" then ArrayValue (roof hp)
  else if String.eqb key "doors" then ArrayValue (doors hp)
  else if String.eqb key "windows" then ArrayValue (windows hp)
  else if String.eqb key "other" then ArrayValue (other hp)
  else if existsb (String.eqb key) objectPrototypeKeys then InheritedValue
  else UndefinedValue.

(** What [materialSlots[partType] ?? -1] yields: the slot number of an own
    key, the member itself for a key inherited from [Object.prototype] (a
    function or an object, neither null nor undefined), and -1 for every
    other key. *)
Inductive SlotIndex :=
  | SlotNumber (i : Z)
  | InheritedMember.

Definition getPartMaterialIndex (partType : string) : SlotIndex :=
  if String.eqb partType "walls" then SlotNumber 0
  else if String.eqb partType "roof" then SlotNumber 1
  else if String.eqb partType "doors" then SlotNumber 2
  else if String.eqb partType "windows" then SlotNumber 3
  else if existsb (String.eqb partType) objectPrototypeKeys then InheritedMember
  else SlotNumber (-1).

Inductive Result (A : Type) :=
  | Ok (a : A)
  | TypeError.
Arguments Ok {A} a.
Arguments TypeError {A}.

Definition bind {A B : Type} (r : Result A) (k : A -> Result B) : Result B :=
  match r with
  | Ok a => k a
  | TypeError => TypeError
  end.

(** [material.color = colorObj.clone()] *)
Definition setColor (colorObj : Color) (m : Material) : Material :=
  mkMaterial (mat_name m) colorObj.

(** The body of [parts.forEach((part) => ...)].  An inherited member
    compared with a number converts to NaN, so both tests of the range
    check fail for it. *)
Definition updatePart (partType : string) (colorObj : Color)
    (mats : gmap MaterialRef Material) (part : Object3D)
    : gmap MaterialRef Material :=
  match material part with
  | NoMaterial => mats
  | MaterialArray ms =>
      let materialIndex := getPartMaterialIndex partType in
      match materialIndex with
      | SlotNumber i =>
          if (0 <=? i)%Z && (i <? Z.of_nat (length ms))%Z
          then match ms !! Z.to_nat i with
               | Some m => alter (setColor colorObj) m mats
               | None => mats
               end
          else mats
      | InheritedMember => mats
      end
  | SingleMaterial m => alter (setColor colorObj) m mats
  end.

(** The module state of [src/main.js] that the applicator reads and writes:
    the part index and the material objects the indexed nodes refer to. *)
Record Viewer := mkViewer {
  modelParts : HouseParts;
  materials : gmap MaterialRef Material
}.

(** [updatePartColor(partType, color)] of [src/main.js].  Reading [length]
    of an undefined [parts], or calling the missing [map] or [forEach] of an
    inherited member, throws a [TypeError]. *)
Definition updatePartColor (partType : string) (color : Color) (v : Viewer)
    : Result Viewer :=
  match getProperty (modelParts v) partType with
  | ArrayValue parts =>
      Ok (mkViewer (modelParts v)
                   (foldl (updatePart partType color) (materials v) parts))
  | InheritedValue => TypeError
  | UndefinedValue => TypeError
  end.

(** A series of color-change events, each run to completion in order. *)
Fixpoint runCalls (calls : list (string * Color)) (v : Viewer)
    : Result Viewer :=
  match calls with
  | [] => Ok v
  | (partType, color) :: rest =>
      bind (updatePartColor partType color v) (runCalls rest)
  end.

(** ** Render scheduling (the render-on-demand revision of [main.js]) *)

Module OnDemand.

Record Stats := mkStats {
  fps : Z;
  frameCount : Z;
  lastTime : Q
}.

(** The viewer with the redraw flag, and counters standing for the two
    effects of the drive loop: calls of [renderer.render] and calls of
    [requestAnimationFrame(animate)]. *)
Record State := mkState {
  viewer : Viewer;
  needsRender : bool;
  stats : Stats;
  renderCalls : nat;
  frameRequests : nat
}.

Definition requestRender (s : State) : State :=
  mkState (viewer s) true (stats s) (renderCalls s) (frameRequests s).

(** Subtraction and division of clock readings as the host computes them,
    in double precision.  A finite double is taken as the rational it
    denotes; the roundings of the two operations are the host's and are
    not fixed here. *)
Class DoubleArith := mkDoubleArith {
  doubleSub : Q -> Q -> Q;
  doubleDiv : Q -> Q -> Q
}.

(** [Math.round] of a double: the nearest integer, a tie going upwards.
    On the value of a double this is exact. *)
Definition round (x : Q) : Z := Qfloor (x + (1 # 2)).

(** [updateStats()], with [now] the reading of [performance.now()].  The
    counter and its product with 1000 are integers, exact in doubles; the
    difference and the quotient are the host's. *)
Definition updateStats `{DoubleArith} (now : Q) (st : Stats) : Stats :=
  let frameCount := (frameCount st + 1)%Z in
  let delta := doubleSub now (lastTime st) in
  if Qle_bool 1000 delta
  then mkStats (round (doubleDiv (inject_Z (frameCount * 1000)) delta)) 0%Z now
  else mkStats (fps st) frameCount (lastTime st).

(** [animate()]: one iteration of the drive loop.  [mixer] is never
    assigned, so its update never runs. *)
Definition animate `{DoubleArith} (now : Q) (s : State) : State :=
  let frameRequests := S (frameRequests s) in
  let stats := updateStats now (stats s) in
  if needsRender s
  then mkState (viewer s) false stats (S (renderCalls s)) frameRequests
  else mkState (viewer s) (needsRender s) stats (renderCalls s) frameRequests.

(** [updatePartColor] of the revision: the same loop over the parts, then
    [requestRender()]. *)
Definition updatePartColor (partType : string) (color : Color) (s : State)
    : Result State :=
  bind (updatePartColor partType color (viewer s))
       (fun v => Ok (requestRender
          (mkState v (needsRender s) (stats s) (renderCalls s)
                   (frameRequests s)))).

End OnDemand.

(** ** Sample scenes *)

Module Samples.

(** One mesh with four material slots, as the asset converter exports it. *)
Definition cottageBody : Object3D :=
  Object 1 "CottageBody" true (MaterialArray [10; 11; 12; 13]) [].
Definition cottageScene : Object3D := Object 0 "Scene" false NoMaterial [cottageBody].

Definition mesh001 : Object3D := Object 1 "Mesh001" true (SingleMaterial 10) [].
Definition soleLeafScene : Object3D := Object 0 "Scene" false NoMaterial [mesh001].

Definition frontDoorGlass : Object3D :=
  Object 2 "FrontDoor_Glass" true (SingleMaterial 11) [].
Definition soleDoorScene : Object3D :=
  Object 0 "Scene" false NoMaterial [frontDoorGlass].
Definition wallThenDoorScene : Object3D :=
  Object 0 "Scene" false NoMaterial
    [Object 1 "Wall_North" true (SingleMaterial 10) []; frontDoorGlass].

Definition roofMesh : Object3D := Object 1 "Roof" true (SingleMaterial 10) [].
Definition doorMesh : Object3D := Object 2 "Door" true (SingleMaterial 11) [].
Definition roofThenDoorScene : Object3D :=
  Object 0 "Scene" false NoMaterial [roofMesh; doorMesh].

End Samples.

(** ** Vocabulary of the classifier's properties *)

(** How often the node [o] (told apart by its id) occurs in a part array. *)
Definition occurrences (o : Object3D) (l : list Object3D) : nat :=
  length (List.filter (fun x => objectId x =? objectId o) l).

(** The occurrences of [o] under walls, roof, doors, windows and other. *)
Definition membership (o : Object3D) (hp : HouseParts)
    : nat * nat * nat * nat * nat :=
  (occurrences o (walls hp), occurrences o (roof hp),
   occurrences o (doors hp), occurrences o (windows hp),
   occurrences o (other hp)).

(** The composite-detection rule. *)
Definition compositeRule (o : Object3D) : bool :=
  includes (toLowerCase (name o)) "cottage" && (4 <=? materialCount o).

(** The keyword rules of the design document, in their fixed order. *)
Definition keywordRules : list (string * list string) :=
  [("walls", ["wall"; "siding"; "exterior"]);
   ("roof", ["roof"; "shingle"; "tile"]);
   ("doors", ["door"; "entrance"]);
   ("windows", ["window"; "glass"; "pane"])].

Definition matchesRule (label : string) (rule : string * list string) : bool :=
  existsb (includes label) (snd rule).

Definition firstMatch (label : string) : option string :=
  fst <$> List.find (matchesRule label) keywordRules.

Definition onlyUnder (category : string) : nat * nat * nat * nat * nat :=
  (if String.eqb category "walls" then 1 else 0,
   if String.eqb category "roof" then 1 else 0,
   if String.eqb category "doors" then 1 else 0,
   if String.eqb category "windows" then 1 else 0,
   if String.eqb category "other" then 1 else 0).

Definition total (v : nat * nat * nat * nat * nat) : nat :=
  let '(a, b, c, d, e) := v in a + b + c + d + e.

Definition inAllFour (o : Object3D) (hp : HouseParts) : Prop :=
  o ∈ walls hp /\ o ∈ roof hp /\ o ∈ doors hp /\ o ∈ windows hp.

(** *** Vocabulary of the color applicator's properties *)

Definition categories : list string :=
  ["walls"; "roof"; "doors"; "windows"; "other"].

(** The Material Slot Map of the design document. *)
Definition materialSlotMap (category : string) : option nat :=
  if String.eqb category "walls" then Some 0
  else if String.eqb category "roof" then Some 1
  else if String.eqb category "doors" then Some 2
  else if String.eqb category "windows" then Some 3
  else None.

(** The material object bound at slot [i] of a node. *)
Definition slotAt (n : Object3D) (i : nat) : option MaterialRef :=
  match material n with
  | NoMaterial => None
  | SingleMaterial m => if i =? 0 then Some m else None
  | MaterialArray ms => ms !! i
  end.

(** Reading back the color of slot [i] of a node. *)
Definition slotColor (mats : gmap MaterialRef Material) (n : Object3D) (i : nat)
    : option Color :=
  m ← slotAt n i; color <$> mats !! m.

(** The slots resolved for a category: the slot of every listed node whose
    material is one object, and the mapped slot of every listed node whose
    material is an array that has it. *)
Inductive Resolved (hp : HouseParts) (category : string)
    : Object3D -> nat -> Prop :=
  | resolved_single parts n m :
      getProperty hp category = ArrayValue parts -> n ∈ parts ->
      material n = SingleMaterial m ->
      Resolved hp category n 0
  | resolved_mapped parts n ms i :
      getProperty hp category = ArrayValue parts -> n ∈ parts ->
      material n = MaterialArray ms ->
      materialSlotMap category = Some i -> i < length ms ->
      Resolved hp category n i.

(** The material object, if any, that [updatePart] writes for one node. *)
Definition target (partType : string) (part : Object3D) : option MaterialRef :=
  match material part with
  | NoMaterial => None
  | SingleMaterial m => Some m
  | MaterialArray ms =>
      match materialSlotMap partType with
      | Some i => ms !! i
      | None => None
      end
  end.

Definition targets (partType : string) (parts : list Object3D)
    : list MaterialRef :=
  omap (target partType) parts.

(** Whether a call for [category] writes the material object [m]. *)
Definition resolves (hp : HouseParts) (category : string) (m : MaterialRef)
    : bool :=
  match getProperty hp category with
  | ArrayValue parts => bool_decide (m ∈ targets category parts)
  | _ => false
  end.

(** The color of the last call in [calls] that resolves [m], if any. *)
Definition lastResolving (hp : HouseParts) (m : MaterialRef)
    (calls : list (string * Color)) : option Color :=
  foldl (fun acc call => if resolves hp (fst call) m then Some (snd call) else acc)
        None calls.

Definition repaint (c : option Color) (mat : Material) : Material :=
  match c with
  | Some c => setColor c mat
  | None => mat
  end.

(** Consecutive iterations of the drive loop with nothing in between. *)
Definition runFrames `{OnDemand.DoubleArith} (clock : list Q)
    (s : OnDemand.State) : OnDemand.State :=
  foldl (fun s now => OnDemand.animate now s) s clock.

Module ColorSamples.

Definition white : Color := 0xFFFFFF%N.
Definition saddleBrown : Color := 0x8B4513%N.
Definition red : Color := 0xFF0000%N.

(** The converted cottage: one mesh, four materials of its own. *)
Definition cottageMaterials : gmap MaterialRef Material :=
  list_to_map [(10, mkMaterial "Cottage_Walls" white);
               (11, mkMaterial "Cottage_Roof" white);
               (12, mkMaterial "Cottage_Doors" white);
               (13, mkMaterial "Cottage_Windows" white)].
Definition cottageViewer : Viewer :=
  mkViewer (classify Samples.cottageScene) cottageMaterials.

(** Two meshes that were given the same material object. *)
Definition wallA : Object3D := Object 1 "Wall_A" true (SingleMaterial 10) [].
Definition roofA : Object3D := Object 2 "Roof_A" true (SingleMaterial 10) [].
Definition sharedScene : Object3D :=
  Object 0 "Scene" false NoMaterial [wallA; roofA].
Definition sharedViewer : Viewer :=
  mkViewer (classify sharedScene)
           (list_to_map [(10, mkMaterial "Paint" white)]).

(** A two-material mesh listed under windows: it has no slot 3. *)
Definition bayWindow : Object3D :=
  Object 1 "Wall_Bay" true (SingleMaterial 10) [].
Definition glassPane : Object3D :=
  Object 2 "Glass_Pane" true (MaterialArray [11; 12]) [].
Definition windowLeft : Object3D :=
  Object 3 "window_left" true (SingleMaterial 13) [].
Definition paneScene : Object3D :=
  Object 0 "Scene" false NoMaterial [bayWindow; glassPane; windowLeft].
Definition paneViewer : Viewer :=
  mkViewer (classify paneScene) cottageMaterials.

(** A mesh listed under roof whose material is an array of one object. *)
Definition roofShell : Object3D :=
  Object 2 "Roof_Shell" true (MaterialArray [11]) [].
Definition shellScene : Object3D :=
  Object 0 "Scene" false NoMaterial [bayWindow; roofShell].
Definition shellViewer : Viewer :=
  mkViewer (classify shellScene) cottageMaterials.

(** A double arithmetic for the examples: on their readings, small
    integers with representable results, the operations are exact. *)
Definition exactArith : OnDemand.DoubleArith :=
  OnDemand.mkDoubleArith Qminus Qdiv.

Definition idleStats : OnDemand.Stats := OnDemand.mkStats 60 0 0.
Definition idleState : OnDemand.State :=
  OnDemand.mkState cottageViewer false idleStats 0 0.

End ColorSamples.

(** ** The page: color inputs, previews and their handlers ([src/main.js]) *)

(** A DOM element, as far as the handlers read and write it. *)
Module Dom.

Record Element := mkElement {
  value : string;
  textContent : string
}.

End Dom.

(** The page and the viewer a handler works on together.  [document] maps
    an element id to its element; [getElementById] of a missing id is
    [null]. *)
Record Page := mkPage {
  document : gmap string Dom.Element;
  pageViewer : Viewer
}.

(** How a handler ends: it returns, or it throws with the page as the
    statements before the throw left it. *)
Inductive Outcome :=
  | Returned (p : Page)
  | Thrown (p : Page).

Definition setTextContent (t : string) (el : Dom.Element) : Dom.Element :=
  Dom.mkElement (Dom.value el) t.

Section Handlers.

(** [new THREE.Color(value)] on the string a color input holds: the
    library's parser, taken as given. *)
Variable toColor : string -> Color.

(** What the [value] of the element with a given id reads after a text is
    assigned to it.  A color input sanitizes the text (a valid "#rrggbb"
    in lower case, "#000000" for anything else); other elements have rules
    of their own.  The page's markup and the browser are no part of the
    sources; the rule is taken as given, per element. *)
Variable valueAfter : string -> string -> string.

(** [document.getElementById(id).value = v] on an element that exists. *)
Definition setValue (id v : string) (el : Dom.Element) : Dom.Element :=
  Dom.mkElement (valueAfter id v) (Dom.textContent el).

(** [updateAllColors()]: each of the four inputs that exists has its value
    applied, in the order walls, roof, doors, windows. *)
Definition updateAllColors (document : gmap string Dom.Element) (v : Viewer)
    : Result Viewer :=
  let wallsEl := document !! "walls-color" in
  let roofEl := document !! "roof-color" in
  let doorsEl := document !! "doors-color" in
  let windowsEl := document !! "windows-color" in
  let step (el : option Dom.Element) partType v :=
    match el with
    | Some el => updatePartColor partType (toColor (Dom.value el)) v
    | None => Ok v
    end in
  bind (step wallsEl "walls" v) (fun v =>
  bind (step roofEl "roof" v) (fun v =>
  bind (step doorsEl "doors" v) (fun v =>
  step windowsEl "windows" v))).

(** The listener [addEventListeners] puts on the color input of
    [partType] ("walls", "roof", "doors" or "windows"), if that input
    exists: [e.target] is the input itself. *)
Definition onColorInput (partType : string) (p : Page) : Outcome :=
  match document p !! (partType ++ "-color") with
  | None => Returned p
  | Some target =>
      match updatePartColor partType (toColor (Dom.value target)) (pageViewer p) with
      | TypeError => Thrown p
      | Ok v =>
          let previewEl := document p !! (partType ++ "-preview") in
          match previewEl with
          | Some el =>
              Returned (mkPage (<[partType ++ "-preview" :=
                                   setTextContent (Dom.value target) el]>
                                  (document p)) v)
          | None => Returned (mkPage (document p) v)
          end
      end
  end.

(** The click listener of a preset swatch, with [target] and [color] the
    swatch's [data-target] and [data-color].  Assigning to a property of
    the [null] a missing id yields throws. *)
Definition onPresetClick (target color : string) (p : Page) : Outcome :=
  match document p !! (target ++ "-color") with
  | None => Thrown p
  | Some input =>
      let document1 :=
        <[target ++ "-color" := setValue (target ++ "-color") color input]>
          (document p) in
      match document1 !! (target ++ "-preview") with
      | None => Thrown (mkPage document1 (pageViewer p))
      | Some preview =>
          let document2 :=
            <[target ++ "-preview" := setTextContent color preview]> document1 in
          match updatePartColor target (toColor color) (pageViewer p) with
          | TypeError => Thrown (mkPage document2 (pageViewer p))
          | Ok v => Returned (mkPage document2 v)
          end
      end
  end.

(** The calls [updateAllColors] makes, in order. *)
Definition colorCalls (document : gmap string Dom.Element)
    : list (string * Color) :=
  omap (fun partType =>
          el ← document !! (partType ++ "-color");
          Some (partType, toColor (Dom.value el)))
       ["walls"; "roof"; "doors"; "windows"].

(** The scene graph [createProceduralHouse()] builds: a group of five
    meshes, each with a material of its own (the two windows get clones of
    one template, which itself is bound to no mesh).  [i] and [r] are the
    next free object id and material reference. *)
Definition proceduralHouse (i : nat) (r : MaterialRef) : Object3D :=
  Object i "" false NoMaterial
    [Object (i + 1) "walls" true (SingleMaterial r) [];
     Object (i + 2) "roof" true (SingleMaterial (r + 1)) [];
     Object (i + 3) "door" true (SingleMaterial (r + 2)) [];
     Object (i + 4) "window_left" true (SingleMaterial (r + 4)) [];
     Object (i + 5) "window_right" true (SingleMaterial (r + 5)) []].

Definition proceduralMaterials (r : MaterialRef)
    (mats : gmap MaterialRef Material) : gmap MaterialRef Material :=
  <[r + 5 := mkMaterial "" 0x87ceeb%N]>
  (<[r + 4 := mkMaterial "" 0x87ceeb%N]>
  (<[r + 3 := mkMaterial "" 0x87ceeb%N]>
  (<[r + 2 := mkMaterial "" 0x654321%N]>
  (<[r + 1 := mkMaterial "" 0x8b4513%N]>
  (<[r := mkMaterial "" 0xd2b48c%N]> mats))))).

End Handlers.

(** ** The first revision of [main.js]: keyword rules only, whole-array
       painting *)

Module Legacy.

(** The traversal callback of the first [analyzeModel]. *)
Definition visit (s : Analysis) (child : Object3D) : Analysis :=
  if isMesh child then
    let meshCount := S (meshCount s) in
    let text := orUnnamed (name child) in
    let name := toLowerCase (name child) in
    let hp := houseParts s in
    let done hp' item := mkAnalysis meshCount hp' (partsList s ++ [item]) in
    if includes name "wall" || includes name "siding"
       || includes name "exterior" then
      done (pushWalls child hp) (mkPartItem text "4px solid #D2B48C")
    else if includes name "roof" || includes name "shingle"
            || includes name "tile" then
      done (pushRoof child hp) (mkPartItem text "4px solid #8B4513")
    else if includes name "door" || includes name "entrance" then
      done (pushDoors child hp) (mkPartItem text "4px solid #654321")
    else if includes name "window" || includes name "glass"
            || includes name "pane" then
      done (pushWindows child hp) (mkPartItem text "4px solid #87CEEB")
    else
      done (pushOther child hp) (mkPartItem text "4px solid #888")
  else s.

Definition analyzeModel (object : Object3D) : Analysis :=
  foldl visit (mkAnalysis 0 emptyParts []) (traverse object).

Definition classify (object : Object3D) : HouseParts :=
  houseParts (analyzeModel object).

(** The body of the first [parts.forEach]: every material of an array is
    painted. *)
Definition updatePart (colorObj : Color) (mats : gmap MaterialRef Material)
    (part : Object3D) : gmap MaterialRef Material :=
  match material part with
  | NoMaterial => mats
  | MaterialArray ms =>
      foldl (fun mats mat => alter (setColor colorObj) mat mats) mats ms
  | SingleMaterial m => alter (setColor colorObj) m mats
  end.

Definition updatePartColor (partType : string) (color : Color) (v : Viewer)
    : Result Viewer :=
  match getProperty (modelParts v) partType with
  | ArrayValue parts =>
      Ok (mkViewer (modelParts v) (foldl (updatePart color) (materials v) parts))
  | InheritedValue => TypeError
  | UndefinedValue => TypeError
  end.

End Legacy.

(** ** Events of the render-on-demand revision *)

(** What reaches the drive loop: a frame callback at a clock reading, or a
    call of [requestRender] from some handler. *)
Inductive LoopEvent :=
  | Frame (now : Q)
  | RenderRequest.

Definition loopStep `{OnDemand.DoubleArith} (s : OnDemand.State)
    (e : LoopEvent) : OnDemand.State :=
  match e with
  | Frame now => OnDemand.animate now s
  | RenderRequest => OnDemand.requestRender s
  end.

Definition runLoop `{OnDemand.DoubleArith} (events : list LoopEvent)
    (s : OnDemand.State) : OnDemand.State :=
  foldl loopStep s events.

Definition isFrame (e : LoopEvent) : bool :=
  match e with Frame _ => true | RenderRequest => false end.

Definition isRequest (e : LoopEvent) : bool :=
  match e with Frame _ => false | RenderRequest => true end.

(** ** Vocabulary of the further properties *)

Definition meshesOf (object : Object3D) : list Object3D :=
  List.filter isMesh (traverse object).

Definition partArrays (hp : HouseParts) : list (list Object3D) :=
  [walls hp; roof hp; doors hp; windows hp; other hp].

(** The category the keyword rules alone give a label. *)
Definition keywordCategory (label : string) : string :=
  default "other" (firstMatch label).

(** Every material object bound to some slot of a node. *)
Definition slotsOf (n : Object3D) : list MaterialRef :=
  match material n with
  | NoMaterial => []
  | SingleMaterial m => [m]
  | MaterialArray ms => ms
  end.

Module PageSamples.

(** A reading of "#rrggbb" strings, standing for the library's parser in
    the examples. *)
Definition hexDigit (a : ascii) : N :=
  let n := N_of_ascii a in
  if (48 <=? n)%N && (n <=? 57)%N then (n - 48)%N
  else if (97 <=? n)%N && (n <=? 102)%N then (n - 87)%N
  else if (65 <=? n)%N && (n <=? 70)%N then (n - 55)%N
  else 0%N.

Fixpoint hexValue (acc : N) (s : string) : N :=
  match s with
  | EmptyString => acc
  | String a s' => hexValue (16 * acc + hexDigit a)%N s'
  end.

Definition parseHex (s : string) : Color :=
  match s with
  | String "#" digits => hexValue 0 digits
  | _ => 0%N
  end.

Definition input (v : string) : Dom.Element := Dom.mkElement v "".
Definition label (t : string) : Dom.Element := Dom.mkElement "" t.

(** The controls of the page: four color inputs with their previews. *)
Definition controls : gmap string Dom.Element :=
  list_to_map
    [("walls-color", input "#d2b48c"); ("walls-preview", label "#d2b48c");
     ("roof-color", input "#8b4513"); ("roof-preview", label "#8b4513");
     ("doors-color", input "#654321"); ("doors-preview", label "#654321");
     ("windows-color", input "#87ceeb"); ("windows-preview", label "#87ceeb")].

(** A page whose roof preview is missing. *)
Definition noRoofPreviewPage : Page :=
  mkPage (delete "roof-preview" controls) ColorSamples.cottageViewer.

End PageSamples.

(** ** Properties of the classifier *)

Section Classifier.

Implicit Types (o x : Object3D) (s : Analysis) (l : list Object3D).

Lemma occurrences_push o l x :
  occurrences o (l ++ [x])
  = occurrences o l + (if objectId x =? objectId o then 1 else 0).
Proof.
  unfold occurrences. rewrite List.filter_app, length_app. simpl.
  destruct (objectId x =? objectId o); reflexivity.
Qed.

Lemma occurrences_push_other o l x :
  objectId x <> objectId o -> occurrences o (l ++ [x]) = occurrences o l.
Proof.
  intros Hne. rewrite occurrences_push.
  apply Nat.eqb_neq in Hne. rewrite Hne. lia.
Qed.

Lemma occurrences_push_self o l :
  occurrences o (l ++ [o]) = S (occurrences o l).
Proof. rewrite occurrences_push, Nat.eqb_refl. lia. Qed.

(** Case analysis on the branch [visit] takes. *)
Ltac visit_branches :=
  unfold visit;
  repeat match goal with
         | |- context [if ?b then _ else _] =>
             let E := fresh "E" in destruct b eqn:E
         end; cbn [houseParts meshCount partsList walls roof doors windows other
                   pushWalls pushRoof pushDoors pushWindows pushOther].

Lemma visit_meshCount s x :
  meshCount (visit s x) = meshCount s + (if isMesh x then 1 else 0).
Proof. visit_branches; lia. Qed.

Lemma visit_other_node o s x :
  objectId x <> objectId o ->
  membership o (houseParts (visit s x)) = membership o (houseParts s).
Proof.
  intros Hne. unfold membership.
  visit_branches; rewrite ?(occurrences_push_other _ _ _ Hne); reflexivity.
Qed.

Lemma foldl_visit_other_nodes o l s :
  Forall (fun x => objectId x <> objectId o) l ->
  membership o (houseParts (foldl visit s l)) = membership o (houseParts s).
Proof.
  revert s. induction l as [|x l IH]; intros s Hl; [done|].
  inversion Hl; subst. simpl. rewrite IH by done. by apply visit_other_node.
Qed.

Lemma foldl_visit_meshCount l s :
  meshCount (foldl visit s l)
  = meshCount s + length (List.filter isMesh l).
Proof.
  revert s. induction l as [|x l IH]; intros s; simpl; [lia|].
  rewrite IH, visit_meshCount. destruct (isMesh x); simpl; lia.
Qed.

Lemma NoDup_ids_split (pre post : list Object3D) o :
  NoDup (map objectId (pre ++ o :: post)) ->
  Forall (fun x => objectId x <> objectId o) pre
  /\ Forall (fun x => objectId x <> objectId o) post.
Proof.
  rewrite map_app. simpl. intros H.
  apply NoDup_app in H as (_ & Hpre & Hpost).
  apply NoDup_cons in Hpost as (Hpost & _).
  split; apply Forall_forall; intros x Hx Heq.
  - apply (Hpre (objectId x)).
    + apply list_elem_of_fmap. by exists x.
    + rewrite Heq. left.
  - apply Hpost. rewrite <- Heq. apply list_elem_of_fmap. by exists x.
Qed.

(** In a scene whose ids are distinct, the final membership of a node is the
    one its own visit gives it, and nothing lists it before that visit. *)
Lemma membership_decided_at_visit (pre post : list Object3D) o :
  NoDup (map objectId (pre ++ o :: post)) ->
  let before := foldl visit (mkAnalysis 0 emptyParts []) pre in
  membership o (houseParts (foldl visit (mkAnalysis 0 emptyParts [])
                                  (pre ++ o :: post)))
  = membership o (houseParts (visit before o))
  /\ membership o (houseParts before) = (0, 0, 0, 0, 0)
  /\ meshCount before = length (List.filter isMesh pre).
Proof.
  intros Hnd before. apply NoDup_ids_split in Hnd as [Hpre Hpost].
  rewrite foldl_app. simpl. fold before.
  split; [by apply foldl_visit_other_nodes|].
  split.
  - unfold before. by rewrite foldl_visit_other_nodes.
  - unfold before. by rewrite foldl_visit_meshCount.
Qed.

(** What a mesh's own visit adds. *)
Lemma visit_self_composite o s :
  isMesh o = true -> compositeRule o = true ->
  membership o (houseParts s) = (0, 0, 0, 0, 0) ->
  membership o (houseParts (visit s o)) = (1, 1, 1, 1, 0).
Proof.
  unfold compositeRule, membership. intros Hm Hc H0.
  inversion H0 as [[Hw Hr Hd Hwi Ho]].
  unfold visit. rewrite Hm, Hc. simpl.
  rewrite !occurrences_push_self. congruence.
Qed.

Lemma visit_self_plain o s :
  isMesh o = true -> compositeRule o = false ->
  membership o (houseParts s) = (0, 0, 0, 0, 0) ->
  total (membership o (houseParts (visit s o))) = 1.
Proof.
  unfold compositeRule, membership. intros Hm Hc H0.
  inversion H0 as [[Hw Hr Hd Hwi Ho]].
  unfold visit. rewrite Hm, Hc.
  repeat match goal with
         | |- context [if ?b then _ else _] => destruct b
         end; simpl; rewrite !occurrences_push_self; lia.
Qed.

End Classifier.

Section ClassifierClaims.

Implicit Types (G o x : Object3D) (s : Analysis) (l : list Object3D).

Lemma visit_keeps_members o s x :
  inAllFour o (houseParts s) -> inAllFour o (houseParts (visit s x)).
Proof.
  unfold inAllFour, visit. intros (Hw & Hr & Hd & Hwi).
  repeat match goal with
         | |- context [if ?b then _ else _] => destruct b
         end; simpl; rewrite ?elem_of_app; tauto.
Qed.

Lemma visit_composite_member o s :
  isMesh o = true -> compositeRule o = true ->
  inAllFour o (houseParts (visit s o)).
Proof.
  unfold compositeRule, inAllFour, visit. intros -> ->. simpl.
  rewrite !elem_of_app, !list_elem_of_singleton. tauto.
Qed.

Lemma foldl_visit_composite_member o l s :
  o ∈ l -> isMesh o = true -> compositeRule o = true ->
  inAllFour o (houseParts (foldl visit s l)).
Proof.
  intros Hin Hm Hc. apply list_elem_of_split in Hin as (pre & post & ->).
  rewrite foldl_app. simpl.
  generalize (visit_composite_member o (foldl visit s pre) Hm Hc).
  generalize (visit (foldl visit s pre) o). clear.
  induction post as [|y post IH]; intros a Ha; simpl; [done|].
  apply IH. by apply visit_keeps_members.
Qed.

Lemma visit_other_plain s x :
  Forall (fun y => compositeRule y = false) (other (houseParts s)) ->
  Forall (fun y => compositeRule y = false) (other (houseParts (visit s x))).
Proof.
  intros H. unfold visit.
  destruct (isMesh x); [|done].
  fold (compositeRule x). destruct (compositeRule x) eqn:Hc; [done|].
  repeat match goal with
         | |- context [if ?b then _ else _] => destruct b
         end; simpl; try done.
  apply Forall_app. split; [done|]. by constructor.
Qed.

Lemma foldl_visit_other_plain l s :
  Forall (fun y => compositeRule y = false) (other (houseParts s)) ->
  Forall (fun y => compositeRule y = false)
         (other (houseParts (foldl visit s l))).
Proof.
  revert s. induction l as [|x l IH]; intros s H; simpl; [done|].
  apply IH. by apply visit_other_plain.
Qed.

(** The first mesh of a traversal never reaches the keyword rules: the
    running [meshCount] is 1 when it is visited, whatever follows it. *)
Lemma first_mesh_is_walls_or_composite G (pre post : list Object3D) o :
  NoDup (map objectId (traverse G)) ->
  traverse G = (pre ++ o :: post)%list ->
  existsb isMesh pre = false -> isMesh o = true ->
  membership o (classify G)
  = if compositeRule o then (1, 1, 1, 1, 0) else onlyUnder "walls".
Proof.
  unfold classify, analyzeModel. intros Hnd Hs Hpre Hm. rewrite Hs in *.
  destruct (membership_decided_at_visit pre post o Hnd) as (-> & H0 & Hcount).
  assert (Hnone : List.filter isMesh pre = []).
  { clear -Hpre. induction pre as [|y pre IH]; [done|]. simpl in *.
    destruct (isMesh y); [done|]. by apply IH. }
  rewrite Hnone in Hcount. simpl in Hcount.
  destruct (compositeRule o) eqn:Hc; [by apply visit_self_composite|].
  revert H0 Hcount. generalize (foldl visit (mkAnalysis 0 emptyParts []) pre).
  unfold membership, compositeRule in *. intros before [= Hw Hr Hd Hwi Ho] Hcount.
  unfold visit. rewrite Hm, Hc, Hcount. simpl.
  rewrite orb_true_r. simpl.
  rewrite occurrences_push_self, Hw, Hr, Hd, Hwi, Ho. reflexivity.
Qed.

End ClassifierClaims.

Section ClassifierTheorems.

Implicit Types (G o x : Object3D).

(** C1. In a scene graph whose nodes have distinct ids, every renderable
    leaf is listed at least once by [classify]; a leaf caught by the
    composite-detection rule (label contains "cottage", four or more
    material slots) is listed once under each of walls, roof, doors and
    windows and not under other, and every other leaf is listed exactly
    once over the five categories. *)
Theorem C1_every_leaf_classified G o :
  NoDup (map objectId (traverse G)) ->
  o ∈ traverse G -> isMesh o = true ->
  1 <= total (membership o (classify G))
  /\ (if compositeRule o
      then membership o (classify G) = (1, 1, 1, 1, 0)
      else total (membership o (classify G)) = 1).
Proof.
  intros Hnd Hin Hm. unfold classify, analyzeModel.
  apply list_elem_of_split in Hin as (pre & post & Hs). rewrite Hs in *.
  destruct (membership_decided_at_visit pre post o Hnd) as (-> & H0 & _).
  destruct (compositeRule o) eqn:Hc.
  - rewrite (visit_self_composite o _ Hm Hc H0). simpl. split; [lia|done].
  - rewrite (visit_self_plain o _ Hm Hc H0). split; [lia|done].
Qed.

Lemma C1_every_leaf_classified_witness :
  membership Samples.cottageBody (classify Samples.cottageScene) = (1, 1, 1, 1, 0)
  /\ total (membership Samples.frontDoorGlass (classify Samples.wallThenDoorScene)) = 1.
Proof.
  split.
  - apply (C1_every_leaf_classified Samples.cottageScene Samples.cottageBody).
    + compute_done.
    + vm_compute. set_solver.
    + reflexivity.
  - apply (C1_every_leaf_classified Samples.wallThenDoorScene Samples.frontDoorGlass).
    + compute_done.
    + vm_compute. set_solver.
    + reflexivity.
Defined.

(** C2 (the code at the failing input). A scene with two renderable leaves,
    "Roof" then "Door": the label of the first contains neither "cottage"
    nor "house" and the composite rule does not apply to it, yet it is
    listed under walls and not under roof, because the running mesh count
    is 1 when it is visited. *)
Theorem C2_first_of_two_leaves_goes_to_walls :
  length (List.filter isMesh (traverse Samples.roofThenDoorScene)) = 2
  /\ includes (toLowerCase (name Samples.roofMesh)) "cottage" = false
  /\ includes (toLowerCase (name Samples.roofMesh)) "house" = false
  /\ compositeRule Samples.roofMesh = false
  /\ firstMatch (toLowerCase (name Samples.roofMesh)) = Some "roof"
  /\ membership Samples.roofMesh (classify Samples.roofThenDoorScene)
     = onlyUnder "walls"
  /\ membership Samples.doorMesh (classify Samples.roofThenDoorScene)
     = onlyUnder "doors".
Proof. repeat split; reflexivity. Qed.

(** C3. Every renderable leaf whose lowercased label contains "cottage" and
    that carries at least four material slots is listed under walls, roof,
    doors and windows together, and not under other. *)
Theorem C3_composite_in_all_four G o :
  o ∈ traverse G -> isMesh o = true ->
  includes (toLowerCase (name o)) "cottage" = true ->
  4 <= materialCount o ->
  o ∈ walls (classify G) /\ o ∈ roof (classify G)
  /\ o ∈ doors (classify G) /\ o ∈ windows (classify G)
  /\ o ∉ other (classify G).
Proof.
  intros Hin Hm Hname Hcount.
  assert (Hc : compositeRule o = true).
  { unfold compositeRule. rewrite Hname.
    exact (proj2 (Nat.leb_le 4 (materialCount o)) Hcount). }
  destruct (foldl_visit_composite_member o (traverse G)
              (mkAnalysis 0 emptyParts []) Hin Hm Hc) as (Hw & Hr & Hd & Hwi).
  repeat split; try done.
  intros Hother.
  assert (Hplain : Forall (fun y => compositeRule y = false) (other (classify G))).
  { apply foldl_visit_other_plain. simpl. constructor. }
  rewrite Forall_forall in Hplain. specialize (Hplain o Hother). congruence.
Qed.

Lemma C3_composite_in_all_four_witness :
  let o := Samples.cottageBody in
  let hp := classify Samples.cottageScene in
  o ∈ walls hp /\ o ∈ roof hp /\ o ∈ doors hp /\ o ∈ windows hp /\ o ∉ other hp.
Proof.
  apply (C3_composite_in_all_four Samples.cottageScene Samples.cottageBody).
  - vm_compute. set_solver.
  - reflexivity.
  - reflexivity.
  - vm_compute. lia.
Defined.

(** C8, as stated, fails: the sole renderable leaf "FrontDoor_Glass", whose
    label matches the doors and the windows keywords, is listed under walls
    and not under doors. *)
Lemma C8_sole_leaf_counterexample :
  let o := Samples.frontDoorGlass in
  let G := Samples.soleDoorScene in
  o ∈ traverse G /\ isMesh o = true
  /\ List.filter (matchesRule (toLowerCase (name o))) keywordRules
     = [("doors", ["door"; "entrance"]); ("windows", ["window"; "glass"; "pane"])]
  /\ firstMatch (toLowerCase (name o)) = Some "doors"
  /\ membership o (classify G) = onlyUnder "walls"
  /\ membership o (classify G) <> onlyUnder "doors".
Proof.
  repeat split; try reflexivity.
  - vm_compute. set_solver.
  - vm_compute. discriminate.
Qed.

(** C8, amended. A renderable leaf that is not the first one visited and
    whose lowercased label contains neither "cottage" nor "house" is listed
    under the first category, in the order walls, roof, doors, windows,
    whose keywords its label matches, and under no other; for the label
    "FrontDoor_Glass" that category is doors. *)
Theorem C8_first_matching_rule_wins G (pre post : list Object3D) o category :
  NoDup (map objectId (traverse G)) ->
  traverse G = (pre ++ o :: post)%list ->
  existsb isMesh pre = true -> isMesh o = true ->
  includes (toLowerCase (name o)) "cottage" = false ->
  includes (toLowerCase (name o)) "house" = false ->
  firstMatch (toLowerCase (name o)) = Some category ->
  membership o (classify G) = onlyUnder category
  /\ (name o = "FrontDoor_Glass" ->
      category = "doors" /\ membership o (classify G) = onlyUnder "doors").
Proof.
  unfold classify, analyzeModel. intros Hnd Hs Hpre Hm Hcot Hhouse Hfirst.
  rewrite Hs in *.
  assert (Hmain : membership o
            (houseParts (foldl visit (mkAnalysis 0 emptyParts [])
                               (pre ++ o :: post)))
          = onlyUnder category).
  { destruct (membership_decided_at_visit pre post o Hnd) as (-> & H0 & Hcount).
    assert (Hsome : 1 <= length (List.filter isMesh pre)).
    { clear -Hpre. induction pre as [|y pre IH]; [done|]. simpl in *.
      destruct (isMesh y); simpl in *; [lia|]. by apply IH. }
    revert H0 Hcount. generalize (foldl visit (mkAnalysis 0 emptyParts []) pre).
    unfold membership. intros before [= Hw Hr Hd Hwi Ho] Hcount.
    assert (Hnot1 : (S (meshCount before) =? 1) = false).
    { apply Nat.eqb_neq. lia. }
    unfold visit. rewrite Hm, Hcot, Hhouse, Hnot1. simpl.
    revert Hfirst. unfold firstMatch, keywordRules, matchesRule. simpl.
    repeat match goal with
           | |- context [includes ?lbl ?k] =>
               destruct (includes lbl k); simpl
           end;
      intros [= <-]; simpl;
      rewrite ?occurrences_push_self, Hw, Hr, Hd, Hwi, Ho; reflexivity. }
  split; [exact Hmain|].
  intros Hname. rewrite Hname in Hfirst.
  assert (Hdoors : category = "doors") by (by injection Hfirst as <-).
  split; [exact Hdoors|]. by rewrite <- Hdoors.
Qed.

Lemma C8_first_matching_rule_wins_witness :
  membership Samples.frontDoorGlass (classify Samples.wallThenDoorScene)
  = onlyUnder "doors".
Proof.
  refine (proj1 (C8_first_matching_rule_wins Samples.wallThenDoorScene
           [Object 0 "Scene" false NoMaterial
              [Object 1 "Wall_North" true (SingleMaterial 10) [];
               Samples.frontDoorGlass];
            Object 1 "Wall_North" true (SingleMaterial 10) []]
           [] Samples.frontDoorGlass "doors" _ _ _ _ _ _ _)).
  - compute_done.
  - reflexivity.
  - reflexivity.
  - reflexivity.
  - reflexivity.
  - reflexivity.
  - reflexivity.
Defined.

End ClassifierTheorems.

(** ** Properties of the color applicator *)

Section Applicator.

Implicit Types (mats : gmap MaterialRef Material) (part n : Object3D)
               (parts : list Object3D) (c : Color) (partType : string).

Lemma getPartMaterialIndex_slot_map partType :
  getPartMaterialIndex partType
  = match materialSlotMap partType with
    | Some i => SlotNumber (Z.of_nat i)
    | None =>
        if existsb (String.eqb partType) objectPrototypeKeys
        then InheritedMember else SlotNumber (-1)
    end.
Proof.
  unfold getPartMaterialIndex, materialSlotMap.
  repeat match goal with
         | |- context [if String.eqb ?a ?b then _ else _] =>
             destruct (String.eqb a b)
         end; reflexivity.
Qed.

Lemma updatePart_target partType c mats part :
  updatePart partType c mats part
  = match target partType part with
    | Some m => alter (setColor c) m mats
    | None => mats
    end.
Proof.
  unfold updatePart, target. destruct (material part) as [|m|ms]; try done.
  rewrite getPartMaterialIndex_slot_map.
  destruct (materialSlotMap partType) as [i|];
    [|by destruct (existsb _ _)].
  rewrite Nat2Z.id.
  destruct (Z.ltb_spec (Z.of_nat i) (Z.of_nat (length ms))) as [Hlt|Hge].
  - replace (0 <=? Z.of_nat i)%Z with true by (symmetry; apply Z.leb_le; lia).
    simpl. by destruct (ms !! i).
  - rewrite andb_false_r. rewrite lookup_ge_None_2; [done|lia].
Qed.

Lemma lookup_foldl_updatePart partType c parts mats (k : MaterialRef) :
  foldl (updatePart partType c) mats parts !! k
  = if bool_decide (k ∈ targets partType parts)
    then setColor c <$> mats !! k
    else mats !! k.
Proof.
  revert mats. unfold targets.
  induction parts as [|p parts IH]; intros mats; simpl; [done|].
  rewrite IH, updatePart_target.
  destruct (target partType p) as [m|] eqn:Ht; simpl.
  - rewrite lookup_alter.
    destruct (decide (m = k)) as [->|Hne].
    + rewrite (bool_decide_eq_true_2 (k ∈ k :: _)) by left.
      destruct (bool_decide _); [|done].
      rewrite <- option_fmap_compose. by destruct (mats !! k).
    + case_bool_decide as H1; case_bool_decide as H2; try done.
      * exfalso. apply H2. by right.
      * exfalso. apply elem_of_cons in H2 as [->|H2]; done.
  - done.
Qed.

Lemma targets_resolved hp partType parts (m : MaterialRef) :
  getProperty hp partType = ArrayValue parts ->
  m ∈ targets partType parts
  <-> exists n i, Resolved hp partType n i /\ slotAt n i = Some m.
Proof.
  intros Hget. unfold targets. rewrite list_elem_of_omap. split.
  - intros (n & Hn & Ht). unfold target in Ht.
    destruct (material n) as [|m'|ms] eqn:Hmat; [done| |].
    + injection Ht as ->. exists n, 0. split.
      * by eapply resolved_single.
      * unfold slotAt. by rewrite Hmat.
    + destruct (materialSlotMap partType) as [i|] eqn:Hi; [|done].
      exists n, i. split.
      * eapply resolved_mapped; eauto. by eapply lookup_lt_Some.
      * unfold slotAt. by rewrite Hmat.
  - intros (n & i & Hres & Hslot). unfold slotAt in Hslot.
    destruct Hres as [parts' n m' Hget' Hin Hmat | parts' n ms i Hget' Hin Hmat Hi Hlt];
      rewrite Hget in Hget'; injection Hget' as <-;
      exists n; (split; [done|]); unfold target; rewrite Hmat in *.
    + done.
    + by rewrite Hi.
Qed.

Lemma getProperty_category hp partType parts :
  getProperty hp partType = ArrayValue parts -> partType ∈ categories.
Proof.
  unfold getProperty, categories.
  repeat match goal with
         | |- context [if String.eqb ?a ?b then _ else _] =>
             destruct (String.eqb_spec a b) as [->|?]; [intros _; set_solver|]
         end.
  by destruct (existsb _ _).
Qed.

Lemma getProperty_unknown hp partType :
  partType ∉ categories ->
  getProperty hp partType = InheritedValue
  \/ getProperty hp partType = UndefinedValue.
Proof.
  intros Hnot. destruct (getProperty hp partType) as [parts| |] eqn:E; auto.
  exfalso. apply Hnot. by eapply getProperty_category.
Qed.

End Applicator.


Section ApplicatorTheorems.

Implicit Types (mats : gmap MaterialRef Material) (part n : Object3D)
               (parts : list Object3D) (c : Color) (v : Viewer)
               (partType category : string).

(** C4, as stated, fails.  "Wall_A" and "Roof_A" hold the same material
    object.  After [updatePartColor("walls", red)] the slot of "Roof_A",
    a node outside the walls list with no slot resolved for walls, reads
    red where it read white. *)
Lemma C4_shared_material_counterexample :
  let v := ColorSamples.sharedViewer in
  let roofA := ColorSamples.roofA in
  exists v',
    updatePartColor "walls" ColorSamples.red v = Ok v'
    /\ (roofA ∉ walls (modelParts v))
    /\ (forall i, ~ Resolved (modelParts v) "walls" roofA i)
    /\ slotColor (materials v) roofA 0 = Some ColorSamples.white
    /\ slotColor (materials v') roofA 0 = Some ColorSamples.red.
Proof.
  eexists. split; [reflexivity|].
  assert (Hout : ColorSamples.roofA ∉ [ColorSamples.wallA]).
  { intros H. apply list_elem_of_singleton in H. discriminate H. }
  split; [exact Hout|].
  split; [|split; reflexivity].
  intros i Hres.
  inversion Hres as [parts n m Hget Hin _ | parts n ms j Hget Hin _ _ _];
    subst; injection Hget as <-; exact (Hout Hin).
Qed.

(** C4, amended.  After [updatePartColor(category, c)] the part index is
    what it was; every slot resolved for the category (the slot of a listed
    node whose material is one object, the mapped slot 0, 1, 2 or 3 of a
    listed node whose material is an array that has it) reads back [c]; and
    every slot, of a listed node or of any other, whose material object is
    not the object of a resolved slot reads what it read before.  So on a
    listed node whose material is an array that has the mapped slot, that
    slot reads [c] and each other slot whose object no resolved slot holds
    is unchanged; and when that node is the only one listed and its
    materials are distinct objects, all its other slots are unchanged. *)
Theorem C4_resolved_slots_read_back category c v v' :
  updatePartColor category c v = Ok v' ->
  modelParts v' = modelParts v
  /\ (forall n i,
        Resolved (modelParts v) category n i ->
        slotColor (materials v') n i
        = ((fun _ => c) <$> slotColor (materials v) n i))
  /\ (forall n i m,
        slotAt n i = Some m ->
        (forall n' i', Resolved (modelParts v) category n' i' ->
                       slotAt n' i' <> Some m) ->
        slotColor (materials v') n i = slotColor (materials v) n i)
  /\ (forall parts n (ms : list MaterialRef) k,
        getProperty (modelParts v) category = ArrayValue parts ->
        n ∈ parts -> material n = MaterialArray ms ->
        materialSlotMap category = Some k -> k < length ms ->
        slotColor (materials v') n k
        = ((fun _ => c) <$> slotColor (materials v) n k)
        /\ (forall i m, i <> k -> ms !! i = Some m ->
              (forall n' i', Resolved (modelParts v) category n' i' ->
                             slotAt n' i' <> Some m) ->
              slotColor (materials v') n i = slotColor (materials v) n i))
  /\ (forall n (ms : list MaterialRef) k,
        getProperty (modelParts v) category = ArrayValue [n] ->
        material n = MaterialArray ms -> NoDup ms ->
        materialSlotMap category = Some k ->
        forall i, i <> k ->
          slotColor (materials v') n i = slotColor (materials v) n i).
Proof.
  intros Hcall.
  assert (Hread : forall n i,
    Resolved (modelParts v) category n i ->
    slotColor (materials v') n i = ((fun _ => c) <$> slotColor (materials v) n i)).
  { revert Hcall. unfold updatePartColor.
    destruct (getProperty (modelParts v) category) as [parts| |] eqn:Hget;
      [|done|done].
    intros [= <-]. simpl. intros n i Hres.
    assert (Hslot : is_Some (slotAt n i)).
    { destruct Hres as [? n m _ _ Hmat | ? n ms i _ _ Hmat _ Hlt];
        unfold slotAt; rewrite Hmat; [by eexists|].
      by apply lookup_lt_is_Some. }
    destruct Hslot as [m Hm]. unfold slotColor. rewrite Hm. simpl.
    rewrite lookup_foldl_updatePart.
    rewrite bool_decide_eq_true_2.
    + by destruct (materials v !! m).
    + apply (targets_resolved _ _ _ _ Hget). by exists n, i. }
  assert (Hframe : forall n i m,
    slotAt n i = Some m ->
    (forall n' i', Resolved (modelParts v) category n' i' ->
                   slotAt n' i' <> Some m) ->
    slotColor (materials v') n i = slotColor (materials v) n i).
  { revert Hcall. unfold updatePartColor.
    destruct (getProperty (modelParts v) category) as [parts| |] eqn:Hget;
      [|done|done].
    intros [= <-]. simpl. intros n i m Hm Hfresh.
    unfold slotColor. rewrite Hm. simpl.
    rewrite lookup_foldl_updatePart.
    rewrite bool_decide_eq_false_2; [done|].
    intros Hin. apply (targets_resolved _ _ _ _ Hget) in Hin
      as (n' & i' & Hres & Hslot).
    by apply (Hfresh n' i'). }
  split.
  { revert Hcall. unfold updatePartColor.
    destruct (getProperty (modelParts v) category); [|done|done].
    by intros [= <-]. }
  split; [exact Hread|]. split; [exact Hframe|]. split.
  - intros parts n ms k Hget Hn Hmat Hk Hlt. split.
    + apply Hread. by eapply resolved_mapped.
    + intros i m _ Hi Hfresh. apply (Hframe n i m); [|done].
      unfold slotAt. by rewrite Hmat.
  - intros n ms k Hget Hmat Hnd Hk i Hik.
    destruct (ms !! i) as [m|] eqn:Hi.
    2:{ unfold slotColor, slotAt. by rewrite Hmat, Hi. }
    apply (Hframe n i m); [unfold slotAt; by rewrite Hmat|].
    intros n' i' Hres Hslot.
    inversion Hres as [parts x m' Hget' Hin Hmat' | parts x ms' j Hget' Hin Hmat' Hj Hlt];
      subst; rewrite Hget in Hget'; injection Hget' as <-;
      apply list_elem_of_singleton in Hin; subst n';
      rewrite Hmat in Hmat'; [discriminate Hmat'|].
    injection Hmat' as <-. rewrite Hk in Hj. injection Hj as <-.
    unfold slotAt in Hslot. rewrite Hmat in Hslot.
    apply Hik. by eapply NoDup_lookup.
Qed.

(** On the four-slot "CottageBody", the only node listed under roof,
    [updatePartColor("roof", "#8B4513")] changes slot 1 only. *)
Lemma C4_resolved_slots_read_back_witness :
  let v := ColorSamples.cottageViewer in
  let body := Samples.cottageBody in
  exists v',
    updatePartColor "roof" ColorSamples.saddleBrown v = Ok v'
    /\ slotColor (materials v') body 1 = Some ColorSamples.saddleBrown
    /\ slotColor (materials v') body 0 = slotColor (materials v) body 0
    /\ slotColor (materials v') body 2 = slotColor (materials v) body 2
    /\ slotColor (materials v') body 3 = slotColor (materials v) body 3.
Proof.
  eexists. split; [reflexivity|].
  destruct (C4_resolved_slots_read_back "roof" ColorSamples.saddleBrown
              ColorSamples.cottageViewer _ eq_refl)
    as (_ & _ & _ & Hmapped & Hsole).
  assert (Hnd : NoDup [10; 11; 12; 13]) by compute_done.
  split.
  - destruct (Hmapped [Samples.cottageBody] Samples.cottageBody
                [10; 11; 12; 13] 1) as [Hone _];
      [reflexivity|left|reflexivity|reflexivity|simpl; lia|].
    rewrite Hone. reflexivity.
  - split; [|split];
      apply (Hsole Samples.cottageBody [10; 11; 12; 13] 1
               eq_refl eq_refl Hnd eq_refl); lia.
Defined.

(** C5.  A listed node whose material is an array for which the category
    has no mapped index, or a mapped index past the end of the array, is
    passed over: its step writes nothing and raises nothing, and the call
    returns normally with the result of processing the nodes before and
    after it.  On any node whose material is an array, a step leaves every
    material object other than the one at the mapped index as it was. *)
Theorem C5_unresolvable_slot_skipped category c v (pre post : list Object3D)
    n (ms : list MaterialRef) :
  getProperty (modelParts v) category = ArrayValue (pre ++ n :: post) ->
  material n = MaterialArray ms ->
  match materialSlotMap category with
  | Some i => length ms <= i
  | None => True
  end ->
  (forall mats, updatePart category c mats n = mats)
  /\ (forall i, ~ Resolved (modelParts v) category n i)
  /\ updatePartColor category c v
     = Ok (mkViewer (modelParts v)
             (foldl (updatePart category c)
                    (foldl (updatePart category c) (materials v) pre) post))
  /\ (forall n' (ms' : list MaterialRef) mats (m : MaterialRef),
        material n' = MaterialArray ms' ->
        (forall i, materialSlotMap category = Some i -> ms' !! i <> Some m) ->
        updatePart category c mats n' !! m = mats !! m).
Proof.
  intros Hget Hmat Hidx.
  assert (Hskip : forall mats, updatePart category c mats n = mats).
  { intros mats. rewrite updatePart_target. unfold target. rewrite Hmat.
    destruct (materialSlotMap category) as [i|]; [|done].
    by rewrite lookup_ge_None_2. }
  split; [exact Hskip|]. split; [|split].
  - intros i Hres.
    inversion Hres as [parts n' m _ _ Hmat' | parts n' ms' j _ _ Hmat' Hj Hlt];
      subst; rewrite Hmat in Hmat'; [discriminate Hmat'|].
    injection Hmat' as <-. rewrite Hj in Hidx. lia.
  - unfold updatePartColor. rewrite Hget, foldl_app. simpl.
    by rewrite Hskip.
  - intros n' ms' mats m Hmat' Hne.
    rewrite updatePart_target. unfold target. rewrite Hmat'.
    destruct (materialSlotMap category) as [i|]; [|done].
    destruct (ms' !! i) as [m'|] eqn:Hm'; [|done].
    apply lookup_alter_ne. intros ->. by apply (Hne i).
Qed.

(** "Glass_Pane" has two materials and is listed under windows, whose
    mapped index is 3: it is passed over and "window_left" after it is
    still painted. *)
Lemma C5_unresolvable_slot_skipped_witness :
  updatePartColor "windows" ColorSamples.red ColorSamples.paneViewer
  = Ok (mkViewer (modelParts ColorSamples.paneViewer)
          (alter (setColor ColorSamples.red) 13 ColorSamples.cottageMaterials)).
Proof.
  apply (C5_unresolvable_slot_skipped "windows" ColorSamples.red
           ColorSamples.paneViewer [] [ColorSamples.windowLeft]
           ColorSamples.glassPane [11; 12]).
  - reflexivity.
  - reflexivity.
  - simpl. lia.
Defined.

(** An array of one material is an array to [updatePart]: listed under
    roof, whose mapped index is 1, "Roof_Shell" keeps the color of its only
    slot. *)
Lemma array_of_one_under_roof_skipped :
  materialCount ColorSamples.roofShell = 1
  /\ roof (modelParts ColorSamples.shellViewer) = [ColorSamples.roofShell]
  /\ updatePartColor "roof" ColorSamples.red ColorSamples.shellViewer
     = Ok ColorSamples.shellViewer.
Proof. split; [|split]; reflexivity. Qed.

Lemma setColor_repaint (a : option Color) c (mat : Material) :
  setColor c (repaint a mat) = setColor c mat.
Proof. by destruct a. Qed.

Lemma updatePartColor_last_wins category c1 c2 v :
  bind (updatePartColor category c1 v) (updatePartColor category c2)
  = updatePartColor category c2 v.
Proof.
  unfold updatePartColor.
  destruct (getProperty (modelParts v) category) as [parts| |] eqn:Hget;
    [|done|done].
  simpl. rewrite Hget. f_equal. f_equal. apply map_eq. intros k.
  rewrite !lookup_foldl_updatePart.
  destruct (bool_decide _); [|done].
  rewrite <- option_fmap_compose. by destruct (materials v !! k).
Qed.

Lemma lastResolving_from (hp : HouseParts) (m : MaterialRef)
    (calls : list (string * Color)) (a : option Color) :
  foldl (fun acc call => if resolves hp (fst call) m then Some (snd call) else acc)
        a calls
  = match lastResolving hp m calls with
    | Some c => Some c
    | None => a
    end.
Proof.
  unfold lastResolving. revert a.
  induction calls as [|[cat c] calls IH]; intros a; simpl; [done|].
  rewrite IH. rewrite (IH (if resolves hp cat m then Some c else None)).
  destruct (foldl _ None calls); [done|]. by destruct (resolves hp cat m).
Qed.

Lemma updatePartColor_lookup category c v v' (m : MaterialRef) :
  updatePartColor category c v = Ok v' ->
  modelParts v' = modelParts v
  /\ materials v' !! m
     = repaint (if resolves (modelParts v) category m then Some c else None)
         <$> materials v !! m.
Proof.
  unfold updatePartColor, resolves.
  destruct (getProperty (modelParts v) category) as [parts| |]; [|done|done].
  intros [= <-]. simpl. split; [done|].
  rewrite lookup_foldl_updatePart.
  destruct (bool_decide _); simpl; [done|]. by destruct (materials v !! m).
Qed.

Lemma runCalls_lookup (calls : list (string * Color)) v v' (m : MaterialRef) :
  runCalls calls v = Ok v' ->
  modelParts v' = modelParts v
  /\ materials v' !! m
     = repaint (lastResolving (modelParts v) m calls) <$> materials v !! m.
Proof.
  revert v. induction calls as [|[cat c] calls IH]; intros v; simpl.
  - intros [= <-]. split; [done|]. by destruct (materials v !! m).
  - destruct (updatePartColor cat c v) as [v1|] eqn:Hcall; [|done]. simpl.
    intros Hrest. destruct (IH _ Hrest) as [Hparts Hlook].
    destruct (updatePartColor_lookup _ _ _ _ m Hcall) as [Hparts1 Hlook1].
    split; [congruence|].
    rewrite Hlook, Hlook1, Hparts1. unfold lastResolving at 2. simpl.
    rewrite lastResolving_from.
    destruct (lastResolving (modelParts v) m calls) as [c'|]; simpl.
    + rewrite <- option_fmap_compose.
      destruct (materials v !! m) as [mat|]; simpl; [|done].
      by rewrite setColor_repaint.
    + by destruct (materials v !! m).
Qed.

(** C6, as stated, fails in its second half.  "Wall_A" and "Roof_A" hold
    the same material object.  After [updatePartColor("roof", brown)] and
    then [updatePartColor("walls", red)], the last call that resolved the
    slot of "Roof_A" is the one for roof, yet the slot reads red. *)
Lemma C6_shared_material_counterexample :
  let v := ColorSamples.sharedViewer in
  let roofA := ColorSamples.roofA in
  exists v',
    runCalls [("roof", ColorSamples.saddleBrown); ("walls", ColorSamples.red)] v
    = Ok v'
    /\ Resolved (modelParts v) "roof" roofA 0
    /\ (forall i, ~ Resolved (modelParts v) "walls" roofA i)
    /\ slotColor (materials v') roofA 0 = Some ColorSamples.red
    /\ ColorSamples.red <> ColorSamples.saddleBrown.
Proof.
  eexists. split; [reflexivity|].
  assert (Hout : ColorSamples.roofA ∉ [ColorSamples.wallA]).
  { intros H. apply list_elem_of_singleton in H. discriminate H. }
  split.
  { eapply (resolved_single _ "roof" [ColorSamples.roofA] ColorSamples.roofA 10);
      [reflexivity|left|reflexivity]. }
  split.
  { intros i Hres.
    inversion Hres as [parts n m Hget Hin _ | parts n ms j Hget Hin _ _ _];
      subst; injection Hget as <-; exact (Hout Hin). }
  split; [reflexivity|discriminate].
Qed.

Lemma lastResolving_snoc (hp : HouseParts) (m : MaterialRef)
    (calls : list (string * Color)) category c :
  lastResolving hp m (calls ++ [(category, c)])
  = if resolves hp category m then Some c else lastResolving hp m calls.
Proof. unfold lastResolving. by rewrite foldl_app. Qed.

Lemma resolves_Resolved (hp : HouseParts) category (m : MaterialRef) :
  resolves hp category m = true
  <-> exists n i, Resolved hp category n i /\ slotAt n i = Some m.
Proof.
  unfold resolves.
  destruct (getProperty hp category) as [parts| |] eqn:Hget.
  - rewrite bool_decide_eq_true. by apply targets_resolved.
  - split; [done|]. intros (n & i & Hres & _).
    destruct Hres as [? ? ? Hget' | ? ? ? ? Hget']; congruence.
  - split; [done|]. intros (n & i & Hres & _).
    destruct Hres as [? ? ? Hget' | ? ? ? ? Hget']; congruence.
Qed.

(** C6, amended.  Calling [updatePartColor(category, c)] twice in a row
    gives the state one call gives, errors included, and a second call for
    the same category overrides the first.  After any series of calls that
    return, the color of each material object is the color of the last
    call that resolved a slot holding that object, and its former color if
    no call did; a slot reads the color of the object it holds, so a slot
    whose object is shared follows the last call that resolved any slot
    holding it.  The same idempotence holds for the revision that also
    requests a redraw. *)
Theorem C6_updatePartColor_idempotent :
  (forall category c v,
     bind (updatePartColor category c v) (updatePartColor category c)
     = updatePartColor category c v)
  /\ (forall category c1 c2 v,
       bind (updatePartColor category c1 v) (updatePartColor category c2)
       = updatePartColor category c2 v)
  /\ (forall calls v (m : MaterialRef),
       match runCalls calls v with
       | Ok v' =>
           color <$> materials v' !! m
           = ((fun old => default old (lastResolving (modelParts v) m calls))
                <$> (color <$> materials v !! m))
       | TypeError => True
       end)
  /\ (forall calls v n i (m : MaterialRef),
       slotAt n i = Some m ->
       match runCalls calls v with
       | Ok v' =>
           slotColor (materials v') n i
           = ((fun old => default old (lastResolving (modelParts v) m calls))
                <$> slotColor (materials v) n i)
       | TypeError => True
       end)
  /\ (forall hp (m : MaterialRef),
       lastResolving hp m [] = None
       /\ forall calls category c,
            lastResolving hp m (calls ++ [(category, c)])
            = if resolves hp category m then Some c
              else lastResolving hp m calls)
  /\ (forall hp category (m : MaterialRef),
       resolves hp category m = true
       <-> exists n i, Resolved hp category n i /\ slotAt n i = Some m)
  /\ (forall category c s,
       bind (OnDemand.updatePartColor category c s)
            (OnDemand.updatePartColor category c)
       = OnDemand.updatePartColor category c s).
Proof.
  assert (Hobj : forall calls v (m : MaterialRef),
    match runCalls calls v with
    | Ok v' =>
        color <$> materials v' !! m
        = ((fun old => default old (lastResolving (modelParts v) m calls))
             <$> (color <$> materials v !! m))
    | TypeError => True
    end).
  { intros calls v m. destruct (runCalls calls v) as [v'|] eqn:Hrun; [|done].
    destruct (runCalls_lookup _ _ _ m Hrun) as [_ ->].
    destruct (materials v !! m) as [mat|]; simpl; [|done].
    by destruct (lastResolving _ _ _). }
  split; [intros; apply updatePartColor_last_wins|].
  split; [intros; apply updatePartColor_last_wins|].
  split; [exact Hobj|]. split.
  { intros calls v n i m Hslot. specialize (Hobj calls v m).
    destruct (runCalls calls v) as [v'|]; [|done].
    unfold slotColor. rewrite Hslot. simpl. exact Hobj. }
  split.
  { intros hp m. split; [done|]. intros. apply lastResolving_snoc. }
  split; [apply resolves_Resolved|].
  intros category c s. unfold OnDemand.updatePartColor.
  destruct (updatePartColor category c (OnDemand.viewer s)) as [v1|] eqn:Hcall;
    [|done].
  pose proof (updatePartColor_last_wins category c c (OnDemand.viewer s)) as H.
  rewrite Hcall in H.
  cbn [bind OnDemand.requestRender OnDemand.viewer] in *.
  rewrite H. reflexivity.
Qed.

(** On the shared material, roof then walls: the object, and with it the
    slot of "Roof_A", carries the color of the walls call. *)
Lemma C6_updatePartColor_idempotent_witness :
  exists v',
    runCalls [("roof", ColorSamples.saddleBrown); ("walls", ColorSamples.red)]
             ColorSamples.sharedViewer = Ok v'
    /\ lastResolving (modelParts ColorSamples.sharedViewer) 10
         [("roof", ColorSamples.saddleBrown); ("walls", ColorSamples.red)]
       = Some ColorSamples.red
    /\ slotColor (materials v') ColorSamples.roofA 0 = Some ColorSamples.red.
Proof.
  eexists. split; [reflexivity|]. split; [reflexivity|].
  destruct C6_updatePartColor_idempotent as (_ & _ & _ & Hslot & _).
  exact (Hslot [("roof", ColorSamples.saddleBrown); ("walls", ColorSamples.red)]
           ColorSamples.sharedViewer ColorSamples.roofA 0 10 eq_refl).
Defined.

(** C9.  For a category of the fixed set whose part array is empty,
    [updatePartColor] returns normally and leaves the state as it was; the
    revision only raises the redraw flag. *)
Theorem C9_empty_category_noop category c (s : OnDemand.State) :
  category ∈ categories ->
  getProperty (modelParts (OnDemand.viewer s)) category = ArrayValue [] ->
  updatePartColor category c (OnDemand.viewer s) = Ok (OnDemand.viewer s)
  /\ OnDemand.updatePartColor category c s = Ok (OnDemand.requestRender s).
Proof.
  intros _ Hget.
  assert (H : updatePartColor category c (OnDemand.viewer s)
              = Ok (OnDemand.viewer s)).
  { unfold updatePartColor. rewrite Hget. simpl.
    by destruct (OnDemand.viewer s). }
  split; [exact H|].
  unfold OnDemand.updatePartColor. rewrite H. simpl. by destruct s.
Qed.

Lemma C9_empty_category_noop_witness :
  updatePartColor "other" ColorSamples.red ColorSamples.cottageViewer
  = Ok ColorSamples.cottageViewer
  /\ OnDemand.updatePartColor "other" ColorSamples.red ColorSamples.idleState
     = Ok (OnDemand.requestRender ColorSamples.idleState).
Proof.
  apply (C9_empty_category_noop "other" ColorSamples.red ColorSamples.idleState).
  - compute_done.
  - reflexivity.
Defined.

(** C10.  For every string outside the five category names,
    [updatePartColor] throws instead of returning, in both revisions. *)
Theorem C10_unknown_category_throws partType c (s : OnDemand.State) :
  partType ∉ categories ->
  updatePartColor partType c (OnDemand.viewer s) = TypeError
  /\ OnDemand.updatePartColor partType c s = TypeError.
Proof.
  intros Hnot.
  assert (H : updatePartColor partType c (OnDemand.viewer s) = TypeError).
  { unfold updatePartColor.
    by destruct (getProperty_unknown (modelParts (OnDemand.viewer s)) _ Hnot)
      as [-> | ->]. }
  split; [exact H|]. unfold OnDemand.updatePartColor. by rewrite H.
Qed.

Lemma C10_unknown_category_throws_witness :
  updatePartColor "garage" ColorSamples.red ColorSamples.cottageViewer = TypeError
  /\ OnDemand.updatePartColor "garage" ColorSamples.red ColorSamples.idleState
     = TypeError.
Proof.
  apply (C10_unknown_category_throws "garage" ColorSamples.red
           ColorSamples.idleState).
  compute_done.
Defined.

End ApplicatorTheorems.

(** ** Properties of the render scheduling *)

Section RenderLoop.

Import OnDemand.

Context `{!DoubleArith}.

Lemma animate_clean now s :
  needsRender s = false ->
  renderCalls (animate now s) = renderCalls s
  /\ needsRender (animate now s) = false.
Proof. unfold animate. by intros ->. Qed.

Lemma runFrames_clean clock s :
  needsRender s = false ->
  renderCalls (runFrames clock s) = renderCalls s.
Proof.
  revert s. induction clock as [|now clock IH]; intros s Hclean; simpl; [done|].
  destruct (animate_clean now s Hclean) as [Hcalls Hflag].
  unfold runFrames in *. simpl. by rewrite IH.
Qed.

(** C7.  Every iteration of the drive loop re-arms the frame callback and
    updates the frame statistics whatever the flag says; it draws exactly
    when the flag is set, and leaves the flag cleared; so the iteration
    that follows it with no [requestRender] in between draws nothing, and
    any run of such iterations draws at most once. *)
Theorem C7_draw_iff_dirty (now : Q) (s : State) :
  frameRequests (animate now s) = S (frameRequests s)
  /\ stats (animate now s) = updateStats now (stats s)
  /\ (renderCalls (animate now s) = S (renderCalls s) <-> needsRender s = true)
  /\ (renderCalls (animate now s) = renderCalls s <-> needsRender s = false)
  /\ needsRender (animate now s) = false
  /\ (forall next, renderCalls (animate next (animate now s))
                   = renderCalls (animate now s))
  /\ (forall clock, renderCalls (runFrames clock s) <= S (renderCalls s)).
Proof.
  assert (Hflag : needsRender (animate now s) = false).
  { unfold animate. by destruct (needsRender s) eqn:E. }
  split; [unfold animate; by destruct (needsRender s)|].
  split; [unfold animate; by destruct (needsRender s)|].
  split; [unfold animate; destruct (needsRender s); simpl; split; (done || lia)|].
  split; [unfold animate; destruct (needsRender s); simpl; split; (done || lia)|].
  split; [exact Hflag|].
  split.
  - intros next. by apply animate_clean.
  - intros [|t clock]; simpl; [lia|].
    change (renderCalls (runFrames clock (animate t s)) <= S (renderCalls s)).
    rewrite runFrames_clean.
    + unfold animate. destruct (needsRender s); simpl; lia.
    + unfold animate. by destruct (needsRender s) eqn:E.
Qed.

End RenderLoop.

(** ** Further properties of the classifier *)

Section ClassifierMore.

Local Open Scope list_scope.

Implicit Types (G o x : Object3D) (s : Analysis) (l : list Object3D).

(** Induction over the traversal as [analyzeModel] consumes it. *)
Lemma analyze_ind (P : list Object3D -> Analysis -> Prop) :
  P [] (mkAnalysis 0 emptyParts []) ->
  (forall l s x, P l s -> P (l ++ [x])%list (visit s x)) ->
  forall l, P l (foldl visit (mkAnalysis 0 emptyParts []) l).
Proof.
  intros Hnil Hstep l. induction l as [|x l IH] using rev_ind; [done|].
  rewrite foldl_app. simpl. by apply Hstep.
Qed.

Lemma filter_snoc (f : Object3D -> bool) l x :
  List.filter f (l ++ [x]) = (List.filter f l ++ (if f x then [x] else []))%list.
Proof. rewrite List.filter_app. simpl. by destruct (f x). Qed.

(** The branch a mesh takes, as the five outcomes it can have. *)
Lemma visit_mesh_cases s x :
  isMesh x = true ->
  exists item,
    meshCount (visit s x) = S (meshCount s)
    /\ partsList (visit s x) = (partsList s ++ [item])%list
    /\ String.prefix (orUnnamed (name x)) (textContent item) = true
    /\ ((compositeRule x = true
         /\ houseParts (visit s x)
            = pushWindows x (pushDoors x (pushRoof x (pushWalls x (houseParts s)))))
        \/ (compositeRule x = false
            /\ (houseParts (visit s x) = pushWalls x (houseParts s)
                \/ (meshCount s <> 0
                    /\ (houseParts (visit s x) = pushRoof x (houseParts s)
                        \/ houseParts (visit s x) = pushDoors x (houseParts s)
                        \/ houseParts (visit s x) = pushWindows x (houseParts s)
                        \/ houseParts (visit s x) = pushOther x (houseParts s)))))).
Proof.
  assert (Hpre : forall a b, String.prefix a (a ++ b)%string = true).
  { intros a b. induction a as [|c a IH]; simpl; [by destruct b|].
    destruct (ascii_dec c c); [exact IH|done]. }
  assert (Hrefl : forall a, String.prefix a a = true).
  { intros a. induction a as [|c a IH]; simpl; [done|].
    destruct (ascii_dec c c); [exact IH|done]. }
  intros Hm. unfold visit, compositeRule. rewrite Hm.
  destruct (includes (toLowerCase (name x)) "cottage" && (4 <=? materialCount x)).
  { eexists. do 3 (split; [reflexivity || apply Hpre|]). left. done. }
  destruct (meshCount s) as [|k] eqn:Hk.
  { rewrite orb_true_r. eexists.
    do 3 (split; [reflexivity || apply Hpre|]). right. split; [done|]. by left. }
  repeat match goal with
         | |- context [if ?b then _ else _] => destruct b
         end;
    eexists; (do 3 (split; [reflexivity || apply Hpre || apply Hrefl|]));
    right; (split; [done|]); first [by left | right; split; [done|]; tauto].
Qed.

(** X1.  The analysis counts every mesh of the traversal once, and the
    parts panel gets one entry per mesh, in traversal order, whose text
    starts with the mesh's name (or "Unnamed Part" for an empty name). *)
Theorem analyzeModel_counts_and_manifest G :
  meshCount (analyzeModel G) = length (meshesOf G)
  /\ Forall2 (fun item o =>
                String.prefix (orUnnamed (name o)) (textContent item) = true)
             (partsList (analyzeModel G)) (meshesOf G).
Proof.
  unfold analyzeModel, meshesOf.
  apply (analyze_ind (fun l s =>
    meshCount s = length (List.filter isMesh l)
    /\ Forall2 (fun item o =>
                  String.prefix (orUnnamed (name o)) (textContent item) = true)
               (partsList s) (List.filter isMesh l))).
  - split; [done|constructor].
  - intros l s x [Hc Hp]. rewrite filter_snoc.
    destruct (isMesh x) eqn:Hm.
    + destruct (visit_mesh_cases s x Hm) as (item & -> & -> & Hpre & _).
      split; [rewrite length_app; simpl; lia|].
      apply Forall2_app; [done|]. by repeat constructor.
    + unfold visit. rewrite Hm, app_nil_r. done.
Qed.

(** X2.  Each part array lists meshes of the traversal only, each in
    traversal order: it is a sublist of the traversal's meshes. *)
Theorem part_arrays_sublists_of_meshes G :
  Forall (fun a => sublist a (meshesOf G)) (partArrays (classify G)).
Proof.
  unfold classify, analyzeModel, meshesOf.
  apply (analyze_ind (fun l s =>
    Forall (fun a => sublist a (List.filter isMesh l))
           (partArrays (houseParts s)))).
  - repeat constructor.
  - intros l s x Hl. rewrite filter_snoc.
    destruct (isMesh x) eqn:Hm; [|unfold visit; by rewrite Hm, app_nil_r].
    unfold partArrays in *.
    apply Forall_cons in Hl as [Hw Hl]. apply Forall_cons in Hl as [Hr Hl].
    apply Forall_cons in Hl as [Hd Hl]. apply Forall_cons in Hl as [Hwi Hl].
    apply Forall_cons in Hl as [Ho _].
    assert (Hkeep : forall a, sublist a (List.filter isMesh l) ->
                              sublist a (List.filter isMesh l ++ [x])).
    { intros a Ha. by apply sublist_inserts_r. }
    assert (Hpush : forall a, sublist a (List.filter isMesh l) ->
                              sublist (a ++ [x]) (List.filter isMesh l ++ [x])).
    { intros a Ha. by apply sublist_app. }
    destruct (visit_mesh_cases s x Hm) as (item & _ & _ & _ & Hcase).
    destruct Hcase as [[_ ->] | [_ [-> | [_ [-> | [-> | [-> | ->]]]]]]];
      simpl; repeat constructor; auto.
Qed.

(** X3.  The five part arrays hold one entry per mesh, plus three more for
    every mesh the composite rule catches. *)
Theorem part_arrays_total_length G :
  length (walls (classify G)) + length (roof (classify G))
  + length (doors (classify G)) + length (windows (classify G))
  + length (other (classify G))
  = length (meshesOf G) + 3 * length (List.filter compositeRule (meshesOf G)).
Proof.
  unfold classify, analyzeModel, meshesOf.
  apply (analyze_ind (fun l s =>
    length (walls (houseParts s)) + length (roof (houseParts s))
    + length (doors (houseParts s)) + length (windows (houseParts s))
    + length (other (houseParts s))
    = length (List.filter isMesh l)
      + 3 * length (List.filter compositeRule (List.filter isMesh l)))).
  - reflexivity.
  - intros l s x IH. rewrite filter_snoc.
    destruct (isMesh x) eqn:Hm; [|unfold visit; by rewrite Hm, app_nil_r].
    rewrite filter_snoc, !length_app.
    destruct (visit_mesh_cases s x Hm) as (item & _ & _ & _ & Hcase).
    destruct Hcase as [[-> ->] | [-> [-> | [_ [-> | [-> | [-> | ->]]]]]]];
      simpl; rewrite ?length_app; simpl; lia.
Qed.

(** X4.  A scene without a mesh classifies to five empty arrays, and the
    walls array is empty only then: the first mesh visited is always
    listed under walls. *)
Theorem walls_empty_iff_no_mesh G :
  (meshesOf G = [] -> classify G = emptyParts)
  /\ (walls (classify G) = [] <-> meshesOf G = []).
Proof.
  unfold classify, analyzeModel, meshesOf.
  enough (H : (fun l s =>
    (List.filter isMesh l = [] -> houseParts s = emptyParts)
    /\ (walls (houseParts s) = [] <-> List.filter isMesh l = [])
    /\ meshCount s = length (List.filter isMesh l))
      (traverse G) (foldl visit (mkAnalysis 0 emptyParts []) (traverse G))).
  { destruct H as (H1 & H2 & _). by split. }
  apply analyze_ind.
  - done.
  - intros l s x (Hnone & Hiff & Hcount). rewrite filter_snoc.
    destruct (isMesh x) eqn:Hm;
      [|unfold visit; rewrite Hm, app_nil_r; done].
    destruct (visit_mesh_cases s x Hm) as (item & -> & _ & _ & Hcase).
    split; [intros H; by apply app_eq_nil in H as [_ ?]|].
    split; [|rewrite length_app; simpl; lia].
    split; [|intros H; by apply app_eq_nil in H as [_ ?]].
    intros Hw. exfalso.
    destruct Hcase as [[_ Hhp] | [_ [Hhp | [Hpos Hhp]]]].
    + rewrite Hhp in Hw. simpl in Hw. by apply app_eq_nil in Hw as [_ ?].
    + rewrite Hhp in Hw. simpl in Hw. by apply app_eq_nil in Hw as [_ ?].
    + assert (Hsame : walls (houseParts (visit s x)) = walls (houseParts s)).
      { destruct Hhp as [-> | [-> | [-> | ->]]]; reflexivity. }
      rewrite Hsame in Hw. apply Hiff in Hw. rewrite Hw in Hcount.
      simpl in Hcount. done.
Qed.

End ClassifierMore.

Section ClassifierByLabel.

Local Open Scope list_scope.

Implicit Types (G o x : Object3D) (s : Analysis) (l : list Object3D).

Lemma filter_head_split (f : Object3D -> bool) (l rest : list Object3D) o :
  List.filter f l = o :: rest ->
  exists pre post, l = pre ++ o :: post /\ existsb f pre = false /\ f o = true.
Proof.
  induction l as [|y l IH]; simpl; [done|].
  destruct (f y) eqn:Hy.
  - intros [= -> _]. by exists [], l.
  - intros H. destruct (IH H) as (pre & post & -> & Hpre & Ho).
    exists (y :: pre), post. simpl. by rewrite Hy.
Qed.

(** X5.  The first mesh of the traversal is always listed under walls,
    whatever its label and however many meshes follow it: once under each
    of walls, roof, doors and windows when the composite rule catches it,
    and under walls alone otherwise. *)
Theorem first_mesh_listed_under_walls G o (rest : list Object3D) :
  NoDup (map objectId (traverse G)) ->
  meshesOf G = o :: rest ->
  membership o (classify G)
  = if compositeRule o then (1, 1, 1, 1, 0) else onlyUnder "walls".
Proof.
  intros Hnd Hfirst.
  destruct (filter_head_split isMesh _ _ _ Hfirst) as (pre & post & Hs & Hpre & Hm).
  by apply (first_mesh_is_walls_or_composite G pre post o).
Qed.

Lemma first_mesh_listed_under_walls_witness :
  membership Samples.roofMesh (classify Samples.roofThenDoorScene)
  = onlyUnder "walls".
Proof.
  apply (first_mesh_listed_under_walls Samples.roofThenDoorScene
           Samples.roofMesh [Samples.doorMesh]).
  - compute_done.
  - reflexivity.
Defined.

(** X6.  A mesh that the composite rule does not catch and whose
    lowercased label contains "cottage" or "house" is listed under walls
    only, wherever it stands in the traversal and whatever keywords its
    label also contains. *)
Theorem house_label_goes_to_walls G o :
  NoDup (map objectId (traverse G)) ->
  o ∈ traverse G -> isMesh o = true ->
  compositeRule o = false ->
  includes (toLowerCase (name o)) "cottage"
  || includes (toLowerCase (name o)) "house" = true ->
  membership o (classify G) = onlyUnder "walls".
Proof.
  intros Hnd Hin Hm Hc Hlabel. unfold classify, analyzeModel.
  apply list_elem_of_split in Hin as (pre & post & Hs). rewrite Hs in *.
  destruct (membership_decided_at_visit pre post o Hnd) as (-> & H0 & _).
  revert H0. generalize (foldl visit (mkAnalysis 0 emptyParts []) pre).
  unfold membership, compositeRule in *. intros before [= Hw Hr Hd Hwi Ho].
  unfold visit. rewrite Hm, Hc, Hlabel. simpl.
  rewrite occurrences_push_self, Hw, Hr, Hd, Hwi, Ho. reflexivity.
Qed.

Lemma house_label_goes_to_walls_witness :
  membership (Object 2 "Doghouse_Door" true (SingleMaterial 11) [])
    (classify (Object 0 "Scene" false NoMaterial
                 [Samples.roofMesh;
                  Object 2 "Doghouse_Door" true (SingleMaterial 11) []]))
  = onlyUnder "walls".
Proof.
  apply house_label_goes_to_walls.
  - compute_done.
  - right. right. left.
  - reflexivity.
  - reflexivity.
  - reflexivity.
Defined.

(** Past the first mesh, and without "cottage" or "house" in the label,
    the chain of [visit] is the keyword table. *)
Lemma later_mesh_membership G (pre post : list Object3D) o :
  NoDup (map objectId (traverse G)) ->
  traverse G = pre ++ o :: post ->
  existsb isMesh pre = true -> isMesh o = true ->
  includes (toLowerCase (name o)) "cottage" = false ->
  includes (toLowerCase (name o)) "house" = false ->
  membership o (classify G) = onlyUnder (keywordCategory (toLowerCase (name o))).
Proof.
  unfold classify, analyzeModel. intros Hnd Hs Hpre Hm Hcot Hhouse.
  rewrite Hs in *.
  destruct (membership_decided_at_visit pre post o Hnd) as (-> & H0 & Hcount).
  assert (Hsome : 1 <= length (List.filter isMesh pre)).
  { clear -Hpre. induction pre as [|y pre IH]; [done|]. simpl in *.
    destruct (isMesh y); simpl in *; [lia|]. by apply IH. }
  revert H0 Hcount. generalize (foldl visit (mkAnalysis 0 emptyParts []) pre).
  unfold membership. intros before [= Hw Hr Hd Hwi Ho] Hcount.
  assert (Hnot1 : (S (meshCount before) =? 1) = false).
  { apply Nat.eqb_neq. lia. }
  unfold visit. rewrite Hm, Hcot, Hhouse, Hnot1. simpl.
  unfold keywordCategory, firstMatch, keywordRules, matchesRule. simpl.
  repeat match goal with
         | |- context [includes ?lbl ?k] =>
             destruct (includes lbl k); simpl
         end;
    rewrite ?occurrences_push_self, Hw, Hr, Hd, Hwi, Ho; reflexivity.
Qed.

(** X7.  A mesh that is not the first one visited and whose lowercased
    label contains neither "cottage" nor "house" is listed exactly once,
    under the category the keyword rules give its label, and under other
    when no keyword matches. *)
Theorem later_mesh_follows_keywords G (pre post : list Object3D) o :
  NoDup (map objectId (traverse G)) ->
  traverse G = pre ++ o :: post ->
  existsb isMesh pre = true -> isMesh o = true ->
  includes (toLowerCase (name o)) "cottage" = false ->
  includes (toLowerCase (name o)) "house" = false ->
  membership o (classify G) = onlyUnder (keywordCategory (toLowerCase (name o))).
Proof. exact (later_mesh_membership G pre post o). Qed.

Lemma later_mesh_follows_keywords_witness :
  membership (Object 2 "Chimney" true (SingleMaterial 11) [])
    (classify (Object 0 "Scene" false NoMaterial
                 [Samples.roofMesh;
                  Object 2 "Chimney" true (SingleMaterial 11) []]))
  = onlyUnder "other".
Proof.
  apply (later_mesh_follows_keywords
           (Object 0 "Scene" false NoMaterial
              [Samples.roofMesh; Object 2 "Chimney" true (SingleMaterial 11) []])
           [Object 0 "Scene" false NoMaterial
              [Samples.roofMesh; Object 2 "Chimney" true (SingleMaterial 11) []];
            Samples.roofMesh]
           [] (Object 2 "Chimney" true (SingleMaterial 11) [])).
  - compute_done.
  - reflexivity.
  - reflexivity.
  - reflexivity.
  - reflexivity.
  - reflexivity.
Defined.

(** *** The first revision's classifier *)

Lemma legacy_visit_other_node o s x :
  objectId x <> objectId o ->
  membership o (houseParts (Legacy.visit s x)) = membership o (houseParts s).
Proof.
  intros Hne. unfold membership, Legacy.visit.
  repeat match goal with
         | |- context [if ?b then _ else _] => destruct b
         end; simpl; rewrite ?(occurrences_push_other _ _ _ Hne); reflexivity.
Qed.

Lemma legacy_foldl_visit_other_nodes o l s :
  Forall (fun x => objectId x <> objectId o) l ->
  membership o (houseParts (foldl Legacy.visit s l))
  = membership o (houseParts s).
Proof.
  revert s. induction l as [|x l IH]; intros s Hl; [done|].
  inversion Hl; subst. simpl. rewrite IH by done.
  by apply legacy_visit_other_node.
Qed.

(** The first revision's chain is the keyword table for every mesh. *)
Lemma legacy_membership G o :
  NoDup (map objectId (traverse G)) ->
  o ∈ traverse G -> isMesh o = true ->
  membership o (Legacy.classify G)
  = onlyUnder (keywordCategory (toLowerCase (name o))).
Proof.
  intros Hnd Hin Hm. unfold Legacy.classify, Legacy.analyzeModel.
  apply list_elem_of_split in Hin as (pre & post & Hs). rewrite Hs in *.
  apply NoDup_ids_split in Hnd as [Hpre Hpost].
  rewrite foldl_app. simpl.
  rewrite (legacy_foldl_visit_other_nodes o post _ Hpost).
  pose proof (legacy_foldl_visit_other_nodes o pre
                (mkAnalysis 0 emptyParts []) Hpre) as H0.
  revert H0. generalize (foldl Legacy.visit (mkAnalysis 0 emptyParts []) pre).
  unfold membership. simpl. intros before [= Hw Hr Hd Hwi Ho].
  unfold Legacy.visit. rewrite Hm.
  unfold keywordCategory, firstMatch, keywordRules, matchesRule. simpl.
  repeat match goal with
         | |- context [includes ?lbl ?k] =>
             destruct (includes lbl k); simpl
         end;
    rewrite ?occurrences_push_self, Hw, Hr, Hd, Hwi, Ho; reflexivity.
Qed.

(** X8.  The first revision lists every mesh exactly once, under the
    category the keyword rules give its lowercased label (other when none
    matches), whatever its position and its material. *)
Theorem legacy_classify_by_keywords G o :
  NoDup (map objectId (traverse G)) ->
  o ∈ traverse G -> isMesh o = true ->
  membership o (Legacy.classify G)
  = onlyUnder (keywordCategory (toLowerCase (name o))).
Proof. exact (legacy_membership G o). Qed.

Lemma legacy_classify_by_keywords_witness :
  membership Samples.roofMesh (Legacy.classify Samples.roofThenDoorScene)
  = onlyUnder "roof".
Proof.
  apply (legacy_classify_by_keywords Samples.roofThenDoorScene Samples.roofMesh).
  - compute_done.
  - right. left.
  - reflexivity.
Defined.

(** X9.  The two revisions of the classifier agree on every mesh that is
    not the first one visited and whose lowercased label contains neither
    "cottage" nor "house". *)
Theorem revisions_agree_on_later_meshes G (pre post : list Object3D) o :
  NoDup (map objectId (traverse G)) ->
  traverse G = pre ++ o :: post ->
  existsb isMesh pre = true -> isMesh o = true ->
  includes (toLowerCase (name o)) "cottage" = false ->
  includes (toLowerCase (name o)) "house" = false ->
  membership o (classify G) = membership o (Legacy.classify G).
Proof.
  intros Hnd Hs Hpre Hm Hcot Hhouse.
  rewrite (later_mesh_membership G pre post o) by done.
  rewrite (legacy_membership G o); [done|done| |done].
  rewrite Hs. apply elem_of_app. right. left.
Qed.

Lemma revisions_agree_on_later_meshes_witness :
  membership Samples.frontDoorGlass (classify Samples.wallThenDoorScene)
  = membership Samples.frontDoorGlass (Legacy.classify Samples.wallThenDoorScene).
Proof.
  apply (revisions_agree_on_later_meshes Samples.wallThenDoorScene
           [Samples.wallThenDoorScene;
            Object 1 "Wall_North" true (SingleMaterial 10) []]
           [] Samples.frontDoorGlass).
  - compute_done.
  - reflexivity.
  - reflexivity.
  - reflexivity.
  - reflexivity.
  - reflexivity.
Defined.

End ClassifierByLabel.

(** ** Further properties of the color applicator *)

Section ApplicatorMore.

Local Open Scope list_scope.

Implicit Types (mats : gmap MaterialRef Material) (part n : Object3D)
               (parts : list Object3D) (c : Color) (v : Viewer)
               (partType category : string).

(** X10.  A call of [updatePartColor] that returns keeps the part index,
    creates and drops no material object, and leaves every material's name
    as it was: only colors change. *)
Theorem updatePartColor_only_colors category c v v' :
  updatePartColor category c v = Ok v' ->
  modelParts v' = modelParts v
  /\ dom (materials v') = dom (materials v)
  /\ (forall (m : MaterialRef),
        mat_name <$> materials v' !! m = mat_name <$> materials v !! m).
Proof.
  intros Hcall.
  assert (Hlook : forall (m : MaterialRef),
    mat_name <$> materials v' !! m = mat_name <$> materials v !! m).
  { intros m. destruct (updatePartColor_lookup _ _ _ _ m Hcall) as [_ ->].
    rewrite <- option_fmap_compose.
    destruct (materials v !! m) as [mat|]; simpl; [|done].
    by destruct (resolves _ _ _). }
  split; [by destruct (updatePartColor_lookup _ _ _ _ 0 Hcall)|].
  split; [|exact Hlook].
  apply set_eq. intros m. rewrite !elem_of_dom.
  specialize (Hlook m).
  destruct (materials v' !! m), (materials v !! m); simpl in Hlook;
    try done; split; intros [? ?]; done.
Qed.

Lemma updatePartColor_only_colors_witness :
  exists v',
    updatePartColor "roof" ColorSamples.saddleBrown ColorSamples.cottageViewer
    = Ok v'
    /\ dom (materials v') = dom ColorSamples.cottageMaterials.
Proof.
  eexists. split; [reflexivity|].
  apply (updatePartColor_only_colors "roof" ColorSamples.saddleBrown
           ColorSamples.cottageViewer _ eq_refl).
Defined.

(** X11.  Two calls for categories that resolve no material object in
    common commute, errors included. *)
Theorem updatePartColor_commutes category1 category2 c1 c2 v :
  (forall (m : MaterialRef),
     resolves (modelParts v) category1 m
     && resolves (modelParts v) category2 m = false) ->
  bind (updatePartColor category1 c1 v) (updatePartColor category2 c2)
  = bind (updatePartColor category2 c2 v) (updatePartColor category1 c1).
Proof.
  intros Hdisj.
  destruct (updatePartColor category1 c1 v) as [v1|] eqn:H1;
    destruct (updatePartColor category2 c2 v) as [v2|] eqn:H2; simpl.
  - assert (P1 := fun m => updatePartColor_lookup _ _ _ _ m H1).
    assert (P2 := fun m => updatePartColor_lookup _ _ _ _ m H2).
    destruct (updatePartColor category2 c2 v1) as [v12|] eqn:H12.
    2:{ exfalso. revert H12 H2. unfold updatePartColor.
        destruct (P1 0) as [-> _].
        by destruct (getProperty (modelParts v) category2). }
    destruct (updatePartColor category1 c1 v2) as [v21|] eqn:H21.
    2:{ exfalso. revert H21 H1. unfold updatePartColor.
        destruct (P2 0) as [-> _].
        by destruct (getProperty (modelParts v) category1). }
    assert (P12 := fun m => updatePartColor_lookup _ _ _ _ m H12).
    assert (P21 := fun m => updatePartColor_lookup _ _ _ _ m H21).
    f_equal. destruct v12 as [hp12 m12], v21 as [hp21 m21]. simpl in *.
    f_equal.
    + destruct (P12 0) as [-> _], (P21 0) as [-> _].
      destruct (P1 0) as [-> _], (P2 0) as [-> _]. done.
    + apply map_eq. intros m.
      destruct (P12 m) as [_ ->], (P21 m) as [_ ->].
      destruct (P1 m) as [E1 ->], (P2 m) as [E2 ->]. rewrite E1, E2.
      specialize (Hdisj m).
      destruct (resolves (modelParts v) category1 m),
               (resolves (modelParts v) category2 m);
        try discriminate Hdisj; by destruct (materials v !! m).
  - revert H2. unfold updatePartColor.
    destruct (updatePartColor_lookup _ _ _ _ 0 H1) as [-> _].
    by destruct (getProperty (modelParts v) category2).
  - revert H1. unfold updatePartColor.
    destruct (updatePartColor_lookup _ _ _ _ 0 H2) as [-> _].
    by destruct (getProperty (modelParts v) category1).
  - done.
Qed.

Lemma updatePartColor_commutes_witness :
  bind (updatePartColor "walls" ColorSamples.red ColorSamples.cottageViewer)
       (updatePartColor "roof" ColorSamples.saddleBrown)
  = bind (updatePartColor "roof" ColorSamples.saddleBrown ColorSamples.cottageViewer)
         (updatePartColor "walls" ColorSamples.red).
Proof.
  apply updatePartColor_commutes.
  intros m. unfold resolves. simpl.
  repeat case_bool_decide; try done.
  repeat match goal with
         | H : _ ∈ _ |- _ => apply list_elem_of_singleton in H
         end.
  congruence.
Defined.

(** *** The first revision's applicator *)

Lemma lookup_foldl_alter c (ms : list MaterialRef) mats (k : MaterialRef) :
  foldl (fun mats mat => alter (setColor c) mat mats) mats ms !! k
  = if bool_decide (k ∈ ms) then setColor c <$> mats !! k else mats !! k.
Proof.
  revert mats. induction ms as [|m ms IH]; intros mats; simpl; [done|].
  rewrite IH, lookup_alter.
  destruct (decide (m = k)) as [->|Hne].
  - rewrite (bool_decide_eq_true_2 (k ∈ k :: ms)) by left.
    destruct (bool_decide _); [|done].
    rewrite <- option_fmap_compose. by destruct (mats !! k).
  - case_bool_decide as H1; case_bool_decide as H2; try done.
    + exfalso. apply H2. by right.
    + exfalso. apply elem_of_cons in H2 as [->|H2]; done.
Qed.

Lemma legacy_updatePart_lookup c mats part (k : MaterialRef) :
  Legacy.updatePart c mats part !! k
  = if bool_decide (k ∈ slotsOf part) then setColor c <$> mats !! k
    else mats !! k.
Proof.
  unfold Legacy.updatePart, slotsOf. destruct (material part) as [|m|ms].
  - done.
  - rewrite lookup_alter. case_bool_decide as H.
    + apply list_elem_of_singleton in H as ->. by rewrite decide_True.
    + rewrite decide_False; [done|]. intros ->. apply H. left.
  - apply lookup_foldl_alter.
Qed.

Lemma legacy_lookup_foldl_updatePart c parts mats (k : MaterialRef) :
  foldl (Legacy.updatePart c) mats parts !! k
  = if bool_decide (k ∈ mjoin (slotsOf <$> parts))
    then setColor c <$> mats !! k
    else mats !! k.
Proof.
  revert mats. induction parts as [|p parts IH]; intros mats; simpl; [done|].
  rewrite IH, legacy_updatePart_lookup.
  repeat case_bool_decide; try done;
    try (rewrite <- option_fmap_compose; by destruct (mats !! k));
    exfalso;
    repeat match goal with
           | H : context [_ ∈ _ ++ _] |- _ => rewrite elem_of_app in H
           end; tauto.
Qed.

Lemma slotAt_slotsOf n i (m : MaterialRef) :
  slotAt n i = Some m -> m ∈ slotsOf n.
Proof.
  unfold slotAt, slotsOf. destruct (material n) as [|m'|ms]; [done| |].
  - destruct (i =? 0); [|done]. intros [= ->]. left.
  - apply list_elem_of_lookup_2.
Qed.

(** X12.  The first revision's [updatePartColor] paints every slot of
    every listed node, all entries of a material array included, and
    leaves every material object that no listed node holds as it was. *)
Theorem legacy_updatePartColor_paints_all_slots category c v v' parts :
  getProperty (modelParts v) category = ArrayValue parts ->
  Legacy.updatePartColor category c v = Ok v' ->
  (forall n i, n ∈ parts -> is_Some (slotAt n i) ->
     slotColor (materials v') n i
     = ((fun _ => c) <$> slotColor (materials v) n i))
  /\ (forall (m : MaterialRef),
        (forall n, n ∈ parts -> m ∉ slotsOf n) ->
        materials v' !! m = materials v !! m).
Proof.
  intros Hget. unfold Legacy.updatePartColor. rewrite Hget.
  intros [= <-]. simpl. split.
  - intros n i Hn [m Hm]. unfold slotColor. rewrite Hm. simpl.
    rewrite legacy_lookup_foldl_updatePart, bool_decide_eq_true_2.
    + by destruct (materials v !! m).
    + apply list_elem_of_join. exists (slotsOf n). split.
      * by eapply slotAt_slotsOf.
      * apply list_elem_of_fmap. by exists n.
  - intros m Hfresh.
    rewrite legacy_lookup_foldl_updatePart, bool_decide_eq_false_2; [done|].
    intros Hin. apply list_elem_of_join in Hin as (l & Hm & Hl).
    apply list_elem_of_fmap in Hl as (n & -> & Hn). by apply (Hfresh n).
Qed.

Lemma legacy_updatePartColor_paints_all_slots_witness :
  exists v',
    Legacy.updatePartColor "roof" ColorSamples.red ColorSamples.cottageViewer
    = Ok v'
    /\ slotColor (materials v') Samples.cottageBody 3 = Some ColorSamples.red.
Proof.
  eexists. split; [reflexivity|].
  destruct (legacy_updatePartColor_paints_all_slots "roof" ColorSamples.red
              ColorSamples.cottageViewer _ [Samples.cottageBody]
              eq_refl eq_refl) as [Hall _].
  rewrite (Hall Samples.cottageBody 3); [reflexivity|left|by eexists].
Defined.

(** X13.  On a category whose listed nodes all have a single material (or
    none), the two revisions of [updatePartColor] do the same. *)
Theorem revisions_agree_without_arrays category c v :
  (forall parts n, getProperty (modelParts v) category = ArrayValue parts ->
     n ∈ parts -> forall ms, material n <> MaterialArray ms) ->
  Legacy.updatePartColor category c v = updatePartColor category c v.
Proof.
  intros Hsingle. unfold Legacy.updatePartColor, updatePartColor.
  destruct (getProperty (modelParts v) category) as [parts| |]; [|done|done].
  f_equal. f_equal. specialize (Hsingle parts).
  generalize (materials v).
  induction parts as [|p parts IH]; intros mats; simpl; [done|].
  rewrite IH.
  - f_equal. unfold Legacy.updatePart, updatePart.
    destruct (material p) as [|m|ms] eqn:Hmat; try done.
    exfalso. eapply (Hsingle p); [done|left|done].
  - intros n Hget Hn. apply Hsingle; [done|by right].
Qed.

Lemma revisions_agree_without_arrays_witness :
  Legacy.updatePartColor "walls" ColorSamples.red ColorSamples.sharedViewer
  = updatePartColor "walls" ColorSamples.red ColorSamples.sharedViewer.
Proof.
  apply revisions_agree_without_arrays.
  intros parts n [= <-] Hn ms.
  apply list_elem_of_singleton in Hn as ->. discriminate.
Defined.

End ApplicatorMore.

(** ** Properties of the page handlers *)

Section HandlerTheorems.

Local Open Scope list_scope.

Variable toColor : string -> Color.

Implicit Types (doc : gmap string Dom.Element) (v : Viewer) (p : Page).

Lemma bind_Ok_r {A : Type} (r : Result A) : bind r Ok = r.
Proof. by destruct r. Qed.

Lemma updateAllColors_runCalls doc v :
  updateAllColors toColor doc v = runCalls (colorCalls toColor doc) v.
Proof.
  unfold updateAllColors, colorCalls. simpl.
  change ("walls" +:+ "-color")%string with "walls-color"%string.
  change ("roof" +:+ "-color")%string with "roof-color"%string.
  change ("doors" +:+ "-color")%string with "doors-color"%string.
  change ("windows" +:+ "-color")%string with "windows-color"%string.
  destruct (doc !! "walls-color") as [w|], (doc !! "roof-color") as [r|],
           (doc !! "doors-color") as [d|], (doc !! "windows-color") as [wi|];
    simpl;
    repeat match goal with
           | |- context [bind (updatePartColor ?a ?b ?c) _] =>
               destruct (updatePartColor a b c); simpl; [|done]
           end;
    rewrite ?bind_Ok_r; done.
Qed.

Lemma colorCalls_categories doc :
  Forall (fun call => fst call ∈ ["walls"; "roof"; "doors"; "windows"])
         (colorCalls toColor doc).
Proof.
  unfold colorCalls. simpl.
  change ("walls" +:+ "-color")%string with "walls-color"%string.
  change ("roof" +:+ "-color")%string with "roof-color"%string.
  change ("doors" +:+ "-color")%string with "doors-color"%string.
  change ("windows" +:+ "-color")%string with "windows-color"%string.
  destruct (doc !! "walls-color"), (doc !! "roof-color"),
           (doc !! "doors-color"), (doc !! "windows-color");
    simpl; repeat constructor.
Qed.

Lemma runCalls_returns (calls : list (string * Color)) v :
  Forall (fun call => fst call ∈ ["walls"; "roof"; "doors"; "windows"]) calls ->
  exists v', runCalls calls v = Ok v'.
Proof.
  revert v. induction calls as [|[cat c] calls IH]; intros v Hall; simpl.
  - by eexists.
  - apply Forall_cons in Hall as [Hcat Hall]. simpl in Hcat.
    assert (Hok : exists v1, updatePartColor cat c v = Ok v1).
    { unfold updatePartColor.
      repeat (apply elem_of_cons in Hcat as [->|Hcat]; [by eexists|]).
      by apply elem_of_nil in Hcat. }
    destruct Hok as [v1 ->]. simpl. by apply IH.
Qed.

(** [updateAllColors] as the series of its calls. *)
Lemma updateAllColors_lookup doc v :
  exists v',
    updateAllColors toColor doc v = Ok v'
    /\ modelParts v' = modelParts v
    /\ forall (m : MaterialRef),
         materials v' !! m
         = repaint (lastResolving (modelParts v) m (colorCalls toColor doc))
             <$> materials v !! m.
Proof.
  rewrite updateAllColors_runCalls.
  destruct (runCalls_returns _ v (colorCalls_categories doc)) as [v' Hrun].
  exists v'. split; [done|].
  split; [by destruct (runCalls_lookup _ _ _ 0 Hrun)|].
  intros m. by destruct (runCalls_lookup _ _ _ m Hrun).
Qed.


(** X15.  [updateAllColors] is idempotent: run again on the same inputs
    it changes nothing. *)
Theorem updateAllColors_idempotent doc v :
  bind (updateAllColors toColor doc v) (updateAllColors toColor doc)
  = updateAllColors toColor doc v.
Proof.
  destruct (updateAllColors_lookup doc v) as (v1 & H1 & Hp1 & Hl1).
  destruct (updateAllColors_lookup doc v1) as (v2 & H2 & Hp2 & Hl2).
  rewrite H1. simpl. rewrite H2. f_equal.
  destruct v1 as [hp1 m1], v2 as [hp2 m2]. simpl in *. f_equal; [done|].
  apply map_eq. intros m. rewrite Hl2, Hl1, Hp1.
  rewrite <- option_fmap_compose.
  destruct (materials v !! m) as [mat|]; simpl; [|done].
  by destruct (lastResolving _ _ _).
Qed.

End HandlerTheorems.

Section HandlerOutcomes.

Local Open Scope list_scope.

Variable toColor : string -> Color.
Variable valueAfter : string -> string -> string.

Implicit Types (doc : gmap string Dom.Element) (v : Viewer) (p : Page).

Lemma color_id_not_preview_id (target : string) :
  (target ++ "-color")%string <> (target ++ "-preview")%string.
Proof.
  induction target as [|a target IH]; [discriminate|].
  intros H. apply IH. by injection H.
Qed.

(** X16.  The listener of each of the four color inputs never throws.  It
    paints the category with the input's value, writes that value into the
    category's preview when the preview exists, and leaves every other
    element of the page as it was. *)
Theorem onColorInput_never_throws (partType : string) p :
  partType ∈ ["walls"; "roof"; "doors"; "windows"] ->
  exists p',
    onColorInput toColor partType p = Returned p'
    /\ forall target,
         document p !! (partType ++ "-color")%string = Some target ->
         updatePartColor partType (toColor (Dom.value target)) (pageViewer p)
         = Ok (pageViewer p')
         /\ document p' !! (partType ++ "-preview")%string
            = (setTextContent (Dom.value target)
                 <$> document p !! (partType ++ "-preview")%string)
         /\ (forall k, k <> (partType ++ "-preview")%string ->
               document p' !! k = document p !! k).
Proof.
  intros Hcat. unfold onColorInput.
  destruct (document p !! (partType ++ "-color")%string) as [target|] eqn:Hin.
  2:{ exists p. split; [done|]. intros t [=]. }
  assert (Hok : exists v', updatePartColor partType (toColor (Dom.value target))
                             (pageViewer p) = Ok v').
  { unfold updatePartColor.
    repeat (apply elem_of_cons in Hcat as [->|Hcat]; [by eexists|]).
    by apply elem_of_nil in Hcat. }
  destruct Hok as [v' Hok]. rewrite Hok.
  destruct (document p !! (partType ++ "-preview")%string) as [el|] eqn:Hpv.
  - eexists. split; [reflexivity|]. intros t [= <-]. simpl.
    split; [done|]. split; [by rewrite lookup_insert_eq|].
    intros k Hk. by rewrite lookup_insert_ne.
  - eexists. split; [reflexivity|]. intros t [= <-]. simpl.
    split; [done|]. split; [by rewrite Hpv|done].
Qed.

(** X17.  A preset click returns only for one of the five category names
    whose input and preview both exist; then the input holds what the
    browser makes of the preset's color on assignment (the sanitized color,
    for a color input), the preview shows the preset's text
    and the category is painted with the preset's color.  In every other
    case it throws with nothing painted: at once when the input is missing,
    after writing the input when the preview is missing, and after writing
    both when the name is no category. *)
Theorem onPresetClick_outcomes (target color : string) p :
  match onPresetClick toColor valueAfter target color p with
  | Returned p' =>
      target ∈ categories
      /\ Dom.value <$> document p' !! (target ++ "-color")%string
         = Some (valueAfter (target ++ "-color")%string color)
      /\ Dom.textContent <$> document p' !! (target ++ "-preview")%string
         = Some color
      /\ updatePartColor target (toColor color) (pageViewer p)
         = Ok (pageViewer p')
  | Thrown p' =>
      pageViewer p' = pageViewer p
      /\ ((document p !! (target ++ "-color")%string = None /\ p' = p)
          \/ (is_Some (document p !! (target ++ "-color")%string)
              /\ document p !! (target ++ "-preview")%string = None
              /\ Dom.value <$> document p' !! (target ++ "-color")%string
                 = Some (valueAfter (target ++ "-color")%string color))
          \/ (is_Some (document p !! (target ++ "-color")%string)
              /\ is_Some (document p !! (target ++ "-preview")%string)
              /\ (target ∉ categories)
              /\ Dom.value <$> document p' !! (target ++ "-color")%string
                 = Some (valueAfter (target ++ "-color")%string color)
              /\ Dom.textContent <$> document p' !! (target ++ "-preview")%string
                 = Some color))
  end.
Proof.
  pose proof (color_id_not_preview_id target) as Hne.
  unfold onPresetClick.
  destruct (document p !! (target ++ "-color")%string) as [input|] eqn:Hin.
  2:{ split; [done|]. by left. }
  rewrite lookup_insert_ne by done.
  destruct (document p !! (target ++ "-preview")%string) as [preview|] eqn:Hpv.
  2:{ simpl. split; [done|]. right. left.
      split; [by eexists|]. split; [done|]. by rewrite lookup_insert_eq. }
  destruct (updatePartColor target (toColor color) (pageViewer p))
    as [v'|] eqn:Hcall; simpl.
  - split.
    { revert Hcall. unfold updatePartColor.
      destruct (getProperty (modelParts (pageViewer p)) target) eqn:Hget;
        [|done|done].
      intros _. by eapply getProperty_category. }
    split; [by rewrite lookup_insert_ne, lookup_insert_eq|].
    split; [by rewrite lookup_insert_eq|done].
  - split; [done|]. right. right.
    split; [by eexists|]. split; [by eexists|].
    split.
    { intros Hcat. revert Hcall. unfold updatePartColor, categories in *.
      repeat (apply elem_of_cons in Hcat as [->|Hcat]; [done|]).
      by apply elem_of_nil in Hcat. }
    split; [by rewrite lookup_insert_ne, lookup_insert_eq|].
    by rewrite lookup_insert_eq.
Qed.

End HandlerOutcomes.

Lemma onColorInput_never_throws_witness :
  exists p',
    onColorInput PageSamples.parseHex "roof" PageSamples.noRoofPreviewPage
    = Returned p'.
Proof.
  destruct (onColorInput_never_throws PageSamples.parseHex "roof"
              PageSamples.noRoofPreviewPage) as (p' & Hp' & _).
  - right. left.
  - by exists p'.
Defined.


Section WholeModel.

Local Open Scope list_scope.

Variable toColor : string -> Color.

Implicit Types (doc : gmap string Dom.Element) (v : Viewer) (p : Page)
               (G n : Object3D) (mats : gmap MaterialRef Material).

Lemma foldl_visit_meshes_only (l : list Object3D) (s : Analysis) :
  foldl visit s l = foldl visit s (List.filter isMesh l).
Proof.
  revert s. induction l as [|x l IH]; intros s; simpl; [done|].
  destruct (isMesh x) eqn:Hm; simpl; [apply IH|].
  rewrite <- IH. unfold visit at 2. by rewrite Hm.
Qed.

Lemma classify_sole_composite G n :
  meshesOf G = [n] -> compositeRule n = true ->
  classify G = mkHouseParts [n] [n] [n] [n] [].
Proof.
  unfold meshesOf, classify, analyzeModel. intros Hsole Hc.
  assert (Hm : isMesh n = true).
  { assert (Hin : In n (List.filter isMesh (traverse G)))
      by (rewrite Hsole; by left).
    by apply List.filter_In in Hin as [_ ?]. }
  rewrite foldl_visit_meshes_only, Hsole. simpl.
  unfold visit. unfold compositeRule in Hc. by rewrite Hm, Hc.
Qed.

Lemma colorCalls_all doc (w r d wi : Dom.Element) :
  doc !! "walls-color" = Some w -> doc !! "roof-color" = Some r ->
  doc !! "doors-color" = Some d -> doc !! "windows-color" = Some wi ->
  colorCalls toColor doc
  = [("walls", toColor (Dom.value w)); ("roof", toColor (Dom.value r));
     ("doors", toColor (Dom.value d)); ("windows", toColor (Dom.value wi))].
Proof.
  intros Hw Hr Hd Hwi. unfold colorCalls. simpl.
  change ("walls" +:+ "-color")%string with "walls-color"%string.
  change ("roof" +:+ "-color")%string with "roof-color"%string.
  change ("doors" +:+ "-color")%string with "doors-color"%string.
  change ("windows" +:+ "-color")%string with "windows-color"%string.
  by rewrite Hw, Hr, Hd, Hwi.
Qed.

Lemma resolves_sole_composite n (ms : list MaterialRef) category (j i : nat)
    (m : MaterialRef) :
  material n = MaterialArray ms -> NoDup ms ->
  getProperty (mkHouseParts [n] [n] [n] [n] []) category = ArrayValue [n] ->
  materialSlotMap category = Some j ->
  ms !! i = Some m -> j < length ms ->
  resolves (mkHouseParts [n] [n] [n] [n] []) category m = bool_decide (i = j).
Proof.
  intros Hmat Hnd Hget Hj Hi Hlt. unfold resolves. rewrite Hget.
  unfold targets. simpl. unfold target. rewrite Hmat, Hj.
  destruct (lookup_lt_is_Some_2 ms j Hlt) as [m' Hm']. rewrite Hm'.
  case_bool_decide as H1; case_bool_decide as H2; try done.
  - exfalso. apply list_elem_of_singleton in H1 as ->.
    apply H2. by eapply NoDup_lookup.
  - exfalso. subst j. apply H1. rewrite Hi in Hm'. injection Hm' as ->. left.
Qed.

(** X18.  On a model whose only mesh is caught by the composite rule and
    holds distinct material objects, [updateAllColors] with all four inputs
    present paints slot 0 with the walls input, slot 1 with the roof input,
    slot 2 with the doors input and slot 3 with the windows input, and
    leaves every further slot as it was. *)
Theorem sole_composite_independent_controls G n (ms : list MaterialRef)
    doc mats (w r d wi : Dom.Element) :
  meshesOf G = [n] -> material n = MaterialArray ms ->
  compositeRule n = true -> NoDup ms ->
  doc !! "walls-color" = Some w -> doc !! "roof-color" = Some r ->
  doc !! "doors-color" = Some d -> doc !! "windows-color" = Some wi ->
  exists v',
    updateAllColors toColor doc (mkViewer (classify G) mats) = Ok v'
    /\ (forall i,
          slotColor (materials v') n i
          = ((fun old => match i with
                         | 0 => toColor (Dom.value w)
                         | 1 => toColor (Dom.value r)
                         | 2 => toColor (Dom.value d)
                         | 3 => toColor (Dom.value wi)
                         | _ => old
                         end) <$> slotColor mats n i)).
Proof.
  intros Hsole Hmat Hc Hnd Hw Hr Hd Hwi.
  destruct (updateAllColors_lookup toColor doc
              (mkViewer (classify G) mats)) as (v' & Hcall & _ & Hlook).
  exists v'. split; [done|]. intros i.
  assert (Hlen : 4 <= length ms).
  { unfold compositeRule, materialCount in Hc. rewrite Hmat in Hc.
    apply andb_true_iff in Hc as [_ Hc]. by apply Nat.leb_le in Hc. }
  unfold slotColor, slotAt. rewrite Hmat.
  destruct (ms !! i) as [m|] eqn:Hi; [|done]. simpl.
  rewrite Hlook. simpl.
  rewrite (colorCalls_all doc w r d wi) by done.
  rewrite (classify_sole_composite G n) by done.
  unfold lastResolving. simpl.
  rewrite (resolves_sole_composite n ms "walls" 0 i m) by (done || lia).
  rewrite (resolves_sole_composite n ms "roof" 1 i m) by (done || lia).
  rewrite (resolves_sole_composite n ms "doors" 2 i m) by (done || lia).
  rewrite (resolves_sole_composite n ms "windows" 3 i m) by (done || lia).
  destruct (mats !! m) as [mat|]; simpl; [|done].
  destruct i as [|[|[|[|i]]]]; simpl; try done.
Qed.

End WholeModel.

Lemma sole_composite_independent_controls_witness :
  exists v',
    updateAllColors PageSamples.parseHex PageSamples.controls
      (mkViewer (classify Samples.cottageScene) ColorSamples.cottageMaterials)
    = Ok v'
    /\ slotColor (materials v') Samples.cottageBody 1 = Some 0x8b4513%N
    /\ slotColor (materials v') Samples.cottageBody 3 = Some 0x87ceeb%N.
Proof.
  destruct (sole_composite_independent_controls PageSamples.parseHex
              Samples.cottageScene Samples.cottageBody [10; 11; 12; 13]
              PageSamples.controls ColorSamples.cottageMaterials
              (PageSamples.input "#d2b48c") (PageSamples.input "#8b4513")
              (PageSamples.input "#654321") (PageSamples.input "#87ceeb"))
    as (v' & Hcall & Hslots);
    [reflexivity|reflexivity|reflexivity|compute_done
    |reflexivity|reflexivity|reflexivity|reflexivity|].
  exists v'. split; [exact Hcall|].
  split; [exact (Hslots 1)|exact (Hslots 3)].
Defined.

Section FallbackHouse.

Local Open Scope list_scope.

Variable toColor : string -> Color.

Ltac store_lookup :=
  rewrite ?lookup_alter, ?lookup_insert;
  repeat (case_decide; try lia); simpl; try done.

(** X19.  The fallback house, analyzed and then painted by
    [updateAllColors] from a page with all four inputs: its five meshes are
    listed under walls, roof, doors and windows (both window meshes), none
    under other; each mesh's own material carries the color of its
    category's input; the window template material, bound to no mesh,
    keeps its sky blue; and every material that was in the store under
    another reference is as it was. *)
Theorem fallback_house_paints_each_part (i : nat) (r : MaterialRef)
    (doc : gmap string Dom.Element) (mats : gmap MaterialRef Material)
    (w rf d wi : Dom.Element) :
  doc !! "walls-color" = Some w ->
  doc !! "roof-color" = Some rf ->
  doc !! "doors-color" = Some d ->
  doc !! "windows-color" = Some wi ->
  classify (proceduralHouse i r)
  = mkHouseParts
      [Object (i + 1) "walls" true (SingleMaterial r) []]
      [Object (i + 2) "roof" true (SingleMaterial (r + 1)) []]
      [Object (i + 3) "door" true (SingleMaterial (r + 2)) []]
      [Object (i + 4) "window_left" true (SingleMaterial (r + 4)) [];
       Object (i + 5) "window_right" true (SingleMaterial (r + 5)) []]
      []
  /\ exists v',
       updateAllColors toColor doc
         (mkViewer (classify (proceduralHouse i r)) (proceduralMaterials r mats))
       = Ok v'
       /\ color <$> materials v' !! r = Some (toColor (Dom.value w))
       /\ color <$> materials v' !! (r + 1) = Some (toColor (Dom.value rf))
       /\ color <$> materials v' !! (r + 2) = Some (toColor (Dom.value d))
       /\ color <$> materials v' !! (r + 4) = Some (toColor (Dom.value wi))
       /\ color <$> materials v' !! (r + 5) = Some (toColor (Dom.value wi))
       /\ color <$> materials v' !! (r + 3) = Some 0x87ceeb%N
       /\ (forall (m : MaterialRef), m < r \/ r + 5 < m ->
             materials v' !! m = mats !! m).
Proof.
  intros Hw Hr Hd Hwi.
  assert (Hc : classify (proceduralHouse i r)
    = mkHouseParts
        [Object (i + 1) "walls" true (SingleMaterial r) []]
        [Object (i + 2) "roof" true (SingleMaterial (r + 1)) []]
        [Object (i + 3) "door" true (SingleMaterial (r + 2)) []]
        [Object (i + 4) "window_left" true (SingleMaterial (r + 4)) [];
         Object (i + 5) "window_right" true (SingleMaterial (r + 5)) []]
        []) by reflexivity.
  split; [exact Hc|].
  unfold updateAllColors. rewrite Hw, Hr, Hd, Hwi, Hc.
  unfold updatePartColor, proceduralMaterials. simpl.
  eexists. split; [reflexivity|]. simpl. unfold updatePart. simpl.
  repeat split; try store_lookup.
  intros m Hm. store_lookup.
Qed.

End FallbackHouse.

Lemma fallback_house_paints_each_part_witness :
  exists v',
    updateAllColors PageSamples.parseHex PageSamples.controls
      (mkViewer (classify (proceduralHouse 20 30))
                (proceduralMaterials 30 ColorSamples.cottageMaterials))
    = Ok v'
    /\ color <$> materials v' !! 31 = Some 0x8b4513%N.
Proof.
  destruct (fallback_house_paints_each_part PageSamples.parseHex 20 30
              PageSamples.controls ColorSamples.cottageMaterials
              (PageSamples.input "#d2b48c") (PageSamples.input "#8b4513")
              (PageSamples.input "#654321") (PageSamples.input "#87ceeb"))
    as (_ & v' & Hcall & _ & Hroof & _);
    [reflexivity|reflexivity|reflexivity|reflexivity|].
  exists v'. split; [exact Hcall|exact Hroof].
Defined.

(** ** Further properties of the render scheduling *)

Section RenderLoopMore.

Local Open Scope list_scope.

Context `{!OnDemand.DoubleArith}.

Implicit Types (s : OnDemand.State) (events : list LoopEvent).

Lemma runLoop_app events1 events2 s :
  runLoop (events1 ++ events2) s = runLoop events2 (runLoop events1 s).
Proof. unfold runLoop. apply foldl_app. Qed.

(** X20.  Over any interleaving of frames and redraw requests, the loop
    re-arms itself once per frame; it draws at most once per frame and at
    most once per request (plus once for a flag already set); and it never
    touches the part index or the materials. *)
Theorem runLoop_draw_bounds events s :
  OnDemand.frameRequests (runLoop events s)
  = OnDemand.frameRequests s + length (List.filter isFrame events)
  /\ OnDemand.renderCalls (runLoop events s)
     <= OnDemand.renderCalls s + length (List.filter isFrame events)
  /\ OnDemand.renderCalls (runLoop events s)
     + (if OnDemand.needsRender (runLoop events s) then 1 else 0)
     <= OnDemand.renderCalls s + (if OnDemand.needsRender s then 1 else 0)
        + length (List.filter isRequest events)
  /\ OnDemand.viewer (runLoop events s) = OnDemand.viewer s.
Proof.
  revert s. induction events as [|e events IH]; intros s; simpl.
  - repeat split; lia.
  - destruct (IH (loopStep s e)) as (Hf & Hd & Hr & Hv).
    change (runLoop (e :: events) s) with (runLoop events (loopStep s e)).
    rewrite Hf, Hv.
    destruct e as [now|]; simpl in *; unfold OnDemand.animate in *;
      destruct (OnDemand.needsRender s); simpl in *; repeat split; lia.
Qed.

(** X21.  No request is lost and requests coalesce: after any history,
    one or more calls of [requestRender] followed by a frame produce
    exactly one draw, and leave the flag cleared. *)
Theorem requests_coalesce_into_one_draw events (k : nat) (now : Q) s :
  let before := runLoop events s in
  let after :=
    runLoop (events ++ replicate (S k) RenderRequest ++ [Frame now]) s in
  OnDemand.renderCalls after = S (OnDemand.renderCalls before)
  /\ OnDemand.needsRender after = false.
Proof.
  simpl. rewrite (runLoop_app events). generalize (runLoop events s) as t.
  intros t.
  assert (Hreq : forall j u,
    runLoop (replicate j RenderRequest) (OnDemand.requestRender u)
    = OnDemand.requestRender u).
  { induction j as [|j IHj]; intros u; [done|]. simpl.
    change (runLoop (replicate j RenderRequest)
              (OnDemand.requestRender (OnDemand.requestRender u))
            = OnDemand.requestRender u).
    by rewrite IHj. }
  change (RenderRequest :: replicate k RenderRequest ++ [Frame now])
    with ([RenderRequest] ++ (replicate k RenderRequest ++ [Frame now])).
  rewrite runLoop_app. simpl.
  change (runLoop [RenderRequest] t) with (OnDemand.requestRender t).
  rewrite runLoop_app, Hreq. done.
Qed.

(** X22.  A color change that returns always sets the redraw flag: the
    next frame draws exactly once, with the freshly painted materials. *)
Theorem color_change_is_drawn (partType : string) (c : Color) (now : Q) s s' :
  OnDemand.updatePartColor partType c s = Ok s' ->
  updatePartColor partType c (OnDemand.viewer s) = Ok (OnDemand.viewer s')
  /\ OnDemand.needsRender s' = true
  /\ OnDemand.renderCalls (OnDemand.animate now s') = S (OnDemand.renderCalls s)
  /\ OnDemand.viewer (OnDemand.animate now s') = OnDemand.viewer s'.
Proof.
  unfold OnDemand.updatePartColor.
  destruct (updatePartColor partType c (OnDemand.viewer s)) as [v1|]; [|done].
  simpl. intros [= <-]. done.
Qed.

Lemma Qle_bool_false (x y : Q) : (y < x)%Q -> Qle_bool x y = false.
Proof.
  intros Hlt. destruct (Qle_bool x y) eqn:E; [|done].
  apply Qle_bool_iff in E. exfalso. by apply (Qlt_not_le y x).
Qed.

(** X23.  Between two refreshes of the statistics the frame counter counts
    the frames: as long as the difference the host computes between the
    clock and the last refresh stays below 1000, every frame adds one to
    [frameCount] and leaves [fps] and [lastTime] alone; the first frame at
    which that difference reaches 1000 sets [frameCount] back to 0 and
    [lastTime] to its reading. *)
Theorem frames_counted_between_refreshes (clock : list Q) (next : Q) s :
  Forall (fun now =>
            (OnDemand.doubleSub now (OnDemand.lastTime (OnDemand.stats s))
             < 1000)%Q) clock ->
  OnDemand.stats (runFrames clock s)
  = OnDemand.mkStats (OnDemand.fps (OnDemand.stats s))
      (OnDemand.frameCount (OnDemand.stats s) + Z.of_nat (length clock))
      (OnDemand.lastTime (OnDemand.stats s))
  /\ ((1000 <= OnDemand.doubleSub next (OnDemand.lastTime (OnDemand.stats s)))%Q ->
      OnDemand.frameCount (OnDemand.stats (runFrames (clock ++ [next]) s)) = 0%Z
      /\ OnDemand.lastTime (OnDemand.stats (runFrames (clock ++ [next]) s))
         = next).
Proof.
  intros Hall.
  assert (Hcount : forall clock s,
    Forall (fun now =>
              (OnDemand.doubleSub now (OnDemand.lastTime (OnDemand.stats s))
               < 1000)%Q) clock ->
    OnDemand.stats (runFrames clock s)
    = OnDemand.mkStats (OnDemand.fps (OnDemand.stats s))
        (OnDemand.frameCount (OnDemand.stats s) + Z.of_nat (length clock))
        (OnDemand.lastTime (OnDemand.stats s))).
  { clear. intros clock. induction clock as [|now clock IH]; intros s Hall.
    - simpl. rewrite Z.add_0_r. by destruct (OnDemand.stats s).
    - apply Forall_cons in Hall as [Hnow Hall].
      change (runFrames (now :: clock) s)
        with (runFrames clock (OnDemand.animate now s)).
      assert (Hst : OnDemand.stats (OnDemand.animate now s)
                    = OnDemand.mkStats (OnDemand.fps (OnDemand.stats s))
                        (OnDemand.frameCount (OnDemand.stats s) + 1)
                        (OnDemand.lastTime (OnDemand.stats s))).
      { unfold OnDemand.animate, OnDemand.updateStats.
        rewrite (Qle_bool_false _ _ Hnow).
        by destruct (OnDemand.needsRender s). }
      rewrite IH; rewrite Hst; simpl; [|done].
      f_equal. lia. }
  split; [by apply Hcount|].
  intros Hnext. unfold runFrames. rewrite foldl_app. simpl.
  fold (runFrames clock s).
  assert (Hst : OnDemand.stats (OnDemand.animate next (runFrames clock s))
                = OnDemand.updateStats next (OnDemand.stats (runFrames clock s))).
  { unfold OnDemand.animate. by destruct (OnDemand.needsRender _). }
  rewrite Hst, (Hcount clock s Hall). unfold OnDemand.updateStats. simpl.
  apply Qle_bool_iff in Hnext. rewrite Hnext. done.
Qed.


End RenderLoopMore.

Lemma color_change_is_drawn_witness :
  exists s',
    OnDemand.updatePartColor "roof" ColorSamples.red ColorSamples.idleState
    = Ok s'
    /\ OnDemand.renderCalls
         (@OnDemand.animate ColorSamples.exactArith 16 s') = 1.
Proof.
  eexists. split; [reflexivity|].
  apply (@color_change_is_drawn ColorSamples.exactArith "roof"
           ColorSamples.red 16 ColorSamples.idleState _ eq_refl).
Defined.

Lemma frames_counted_between_refreshes_witness :
  OnDemand.stats
    (@runFrames ColorSamples.exactArith [16; 33; 50]%Q ColorSamples.idleState)
  = OnDemand.mkStats 60 3 0.
Proof.
  apply (@frames_counted_between_refreshes ColorSamples.exactArith
           [16; 33; 50]%Q 1000%Q ColorSamples.idleState).
  repeat constructor.
Defined.


Section SlotIndexFacts.

Local Open Scope list_scope.

(** X25.  [getPartMaterialIndex] gives the four named categories four
    different slot numbers, 0 to 3; it gives -1 to every other string that
    is no member of [Object.prototype], "other" included, and the
    inherited member itself, which is no slot number, to the rest; so no
    two named categories ever aim at the same slot of a material array. *)
Theorem getPartMaterialIndex_separates (a b : string) :
  (a ∈ ["walls"; "roof"; "doors"; "windows"]
   <-> exists i, getPartMaterialIndex a = SlotNumber i /\ (0 <= i <= 3)%Z)
  /\ (a ∉ ["walls"; "roof"; "doors"; "windows"] ->
      getPartMaterialIndex a
      = if bool_decide (a ∈ objectPrototypeKeys)
        then InheritedMember else SlotNumber (-1))
  /\ (a ∈ ["walls"; "roof"; "doors"; "windows"] ->
      getPartMaterialIndex a = getPartMaterialIndex b -> a = b).
Proof.
  assert (Hin : forall s, s ∈ ["walls"; "roof"; "doors"; "windows"]
     <-> exists i, getPartMaterialIndex s = SlotNumber i /\ (0 <= i <= 3)%Z).
  { intros s. unfold getPartMaterialIndex.
    repeat match goal with
           | |- context [if String.eqb ?x ?y then _ else _] =>
               destruct (String.eqb_spec x y) as [->|?]
           end.
    1-4: split; [intros _; eexists; split; [reflexivity|lia]
                |intros _; rewrite !elem_of_cons; tauto].
    split.
    - rewrite !elem_of_cons. intros [?|[?|[?|[?|H]]]]; try done.
      by apply elem_of_nil in H.
    - destruct (existsb _ _); intros (i & [= <-] & Hi); lia. }
  split; [apply Hin|]. split.
  - intros Hout. unfold getPartMaterialIndex.
    repeat match goal with
           | |- context [if String.eqb ?x ?y then _ else _] =>
               destruct (String.eqb_spec x y) as [->|?];
               [exfalso; apply Hout; rewrite !elem_of_cons; tauto|]
           end.
    destruct (existsb (String.eqb a) objectPrototypeKeys) eqn:E.
    + rewrite bool_decide_eq_true_2; [done|].
      apply existsb_exists in E as (k & Hk & Heq).
      apply String.eqb_eq in Heq as ->. by apply list_elem_of_In.
    + rewrite bool_decide_eq_false_2; [done|].
      intros Hk. apply list_elem_of_In in Hk.
      assert (existsb (String.eqb a) objectPrototypeKeys = true)
        by (apply existsb_exists; exists a; split; [done|apply String.eqb_refl]).
      congruence.
  - intros Ha Heq.
    assert (Hb : b ∈ ["walls"; "roof"; "doors"; "windows"]).
    { apply Hin. rewrite <- Heq. by apply Hin. }
    revert Heq. rewrite !elem_of_cons in Ha, Hb.
    destruct Ha as [->|[->|[->|[->|Ha]]]]; [| | | |by apply elem_of_nil in Ha];
      (destruct Hb as [->|[->|[->|[->|Hb]]]]; [| | | |by apply elem_of_nil in Hb]);
      simpl; intros Heq; done.
Qed.

End SlotIndexFacts.
